(** * Wake-on-LAN service: magic packet construction, delivery and reporting

    A shallow embedding of the wake-up service (the [/wakeup] route and the
    [sendCustomMagicPacket] helper it calls) together with the properties
    of its natural-language specification.

    Conventions of the embedding:
    - a JavaScript string is a [string]; a number is a [Z];
    - an absent or [undefined] property of an object is [None];
    - a [Buffer] is a [list Z] of bytes;
    - console output is not part of the event alphabet. *)

From Stdlib Require Import ZArith List String Ascii Bool Arith Lia.
Import ListNotations.
Local Open Scope string_scope.
Local Open Scope list_scope.
Local Open Scope Z_scope.

(* ===================================================================== *)
(** ** JavaScript values used by the service *)
(* ===================================================================== *)

(** Truthiness of a string and of a number (NaN cannot come out of a JSON
    body). *)
Definition truthy_str (s : string) : bool :=
  negb (String.eqb s "").

Definition truthy_num (n : Z) : bool :=
  negb (n =? 0).

(** [a || b] where [a] is an optional string: the first operand when it is
    truthy, the second one otherwise. *)
Definition or_str (a b : option string) : option string :=
  match a with
  | Some s => if truthy_str s then Some s else b
  | None => b
  end.

(** [!v] for an optional string. *)
Definition falsy_str (a : option string) : bool :=
  match a with
  | Some s => negb (truthy_str s)
  | None => true
  end.

(* ===================================================================== *)
(** ** Hardware address text *)
(* ===================================================================== *)

(** [mac.replace(/[:-]/g, '')]: every colon and every dash is removed. *)
Fixpoint replace_separators (mac : string) : string :=
  match mac with
  | EmptyString => EmptyString
  | String c rest =>
      if (Ascii.eqb c ":" || Ascii.eqb c "-")%bool
      then replace_separators rest
      else String c (replace_separators rest)
  end.

(** Case folding of the [i] flag: a letter is compared through its upper
    case form. *)
Definition canonicalize (c : ascii) : nat :=
  let n := nat_of_ascii c in
  if ((97 <=? n) && (n <=? 122))%nat%bool then (n - 32)%nat else n.

(** The character class [[0-9A-F]] under the [i] flag. *)
Definition in_class_0_9_A_F (c : ascii) : bool :=
  let u := canonicalize c in
  (((48 <=? u) && (u <=? 57)) || ((65 <=? u) && (u <=? 70)))%nat%bool.

(** [{n}] repetitions of the class followed by the end anchor. *)
Fixpoint match_class_times (n : nat) (s : string) : bool :=
  match n, s with
  | O, EmptyString => true
  | O, String _ _ => false
  | S _, EmptyString => false
  | S k, String c rest => (in_class_0_9_A_F c && match_class_times k rest)%bool
  end.

(** [/^[0-9A-F]{12}$/i.test(s)]. *)
Definition regex_hex12_test (s : string) : bool :=
  match_class_times 12 s.

(** The guard of the rejection branch:
    [macAddress.length !== 12 || !/^[0-9A-F]{12}$/i.test(macAddress)]. *)
Definition invalid_format (macAddress : string) : bool :=
  (negb (Nat.eqb (String.length macAddress) 12)
   || negb (regex_hex12_test macAddress))%bool.

(* ===================================================================== *)
(** ** [parseInt(s, 16)] and byte stores *)
(* ===================================================================== *)

(** Value of a character as a digit in radix 16. *)
Definition digit_value (c : ascii) : option Z :=
  let n := nat_of_ascii c in
  if ((48 <=? n) && (n <=? 57))%nat%bool then Some (Z.of_nat n - 48)
  else if ((97 <=? n) && (n <=? 102))%nat%bool then Some (Z.of_nat n - 87)
  else if ((65 <=? n) && (n <=? 70))%nat%bool then Some (Z.of_nat n - 55)
  else None.

Definition is_white_space (c : ascii) : bool :=
  let n := nat_of_ascii c in
  ((n =? 9) || (n =? 10) || (n =? 11) || (n =? 12) || (n =? 13)
   || (n =? 32) || (n =? 160))%nat%bool.

Fixpoint trim_start (s : string) : string :=
  match s with
  | String c rest => if is_white_space c then trim_start rest else s
  | EmptyString => s
  end.

(** The longest prefix of digits, accumulated from the left. *)
Fixpoint parse_digits (acc : Z) (s : string) : Z :=
  match s with
  | String c rest =>
      match digit_value c with
      | Some d => parse_digits (16 * acc + d) rest
      | None => acc
      end
  | EmptyString => acc
  end.

Definition strip_sign (s : string) : Z * string :=
  match s with
  | String "-" rest => (-1, rest)
  | String "+" rest => (1, rest)
  | _ => (1, s)
  end.

Definition strip_0x (s : string) : string :=
  match s with
  | String "0" (String "x" rest) => rest
  | String "0" (String "X" rest) => rest
  | _ => s
  end.

(** [parseInt(s, 16)]; [None] stands for NaN. *)
Definition parseInt16 (s : string) : option Z :=
  let (sign, body) := strip_sign (trim_start s) in
  let digits := strip_0x body in
  match digits with
  | String c _ =>
      match digit_value c with
      | Some _ => Some (sign * parse_digits 0 digits)
      | None => None
      end
  | EmptyString => None
  end.

(** Storing a number into a byte buffer: NaN becomes 0, anything else is
    reduced modulo 256. *)
Definition to_uint8 (v : option Z) : Z :=
  match v with
  | Some n => n mod 256
  | None => 0
  end.

Definition Buffer := list Z.

(** [Buffer.alloc(n)]: [n] zero bytes. *)
Definition Buffer_alloc (n : nat) : Buffer := repeat 0 n.

(** [buf[i] = v]; a store past the end of a buffer is ignored. *)
Fixpoint buffer_set (buf : Buffer) (i : nat) (v : Z) : Buffer :=
  match buf, i with
  | [], _ => []
  | _ :: rest, O => v :: rest
  | b :: rest, S k => b :: buffer_set rest k v
  end.

(** [for (let i = 0; i < n; i++) body], threading the state [st]. *)
Definition for_range {A : Type} (n : nat) (body : nat -> A -> A) (st : A) : A :=
  fold_left (fun acc i => body i acc) (seq 0 n) st.

(** The two loops that fill the packet, over an arbitrary source of the
    six address bytes. *)
Definition fill_packet (byte_of : nat -> Z) : Buffer :=
  let magicPacket := Buffer_alloc 102 in
  let magicPacket :=
    for_range 6 (fun i buf => buffer_set buf i 255) magicPacket in
  for_range 16 (fun i buf =>
    for_range 6 (fun j buf' =>
      buffer_set buf' (6 + i * 6 + j) (byte_of j)) buf) magicPacket.

(** [parseInt(macAddress.substring(j * 2, j * 2 + 2), 16)] as stored in the
    buffer. *)
Definition mac_byte (macAddress : string) (j : nat) : Z :=
  to_uint8 (parseInt16 (substring (j * 2) 2 macAddress)).

(** The packet built from a separator-free address. *)
Definition build_magic_packet (macAddress : string) : Buffer :=
  fill_packet (mac_byte macAddress).

(* ===================================================================== *)
(** ** Options of a send *)
(* ===================================================================== *)

(** The options object handed to a sender: every property is optional. *)
Module Options.
Record t : Type := make {
  address : option string;
  port : option Z;
  interface : option string
}.
End Options.

(** [v || d] with a definite default. *)
Definition or_default_str (v : option string) (d : string) : string :=
  match v with
  | Some s => if truthy_str s then s else d
  | None => d
  end.

Definition or_default_num (v : option Z) (d : Z) : Z :=
  match v with
  | Some n => if truthy_num n then n else d
  | None => d
  end.

(** [v || null]. *)
Definition or_null (v : option string) : option string :=
  or_str v None.

(* ===================================================================== *)
(** ** The datagram socket and the promise of one send attempt *)
(* ===================================================================== *)

(** The socket is the [dgram] socket of the runtime, as far as an attempt
    uses it:
    - [bind] returns at once; its callback is added to the listeners of
      ['listening'], and the binding completes, or fails with ['error'], in
      a later job; a binding that completes on a closed socket does nothing;
    - [send] checks its port first and throws when it is not a port; while
      the socket is not bound the datagram waits in a queue, and the first
      datagram to wait adds the listener of ['listening'] that flushes the
      queue;
    - a datagram taken up by the bound socket does not leave at once: its
      destination is resolved and it is handed to the network in a later
      job; when either step fails nothing leaves and the callback gets the
      error, otherwise the datagram leaves, with the broadcast option that
      the socket has then, and the callback is called without an error;
    - listeners are called in the order in which they were added;
    - ['error'] drops the queue before the listeners run;
    - [close] waits in the queue too when there is one.
    The promise is settled by the first [resolve] or [reject], or by an
    exception of its executor, and its reactions run after the job that
    settled it.

    The closures of [sendCustomMagicPacket] are kept as names, since the
    socket stores them and calls them later. *)

(** ['error'] listener: [(err) => { reject(err); socket.close(); }]. *)
Inductive ErrorListener : Type :=
| socket_error_handler.

(** ['listening'] listeners: the callback given to [socket.bind], and the
    listener that the runtime installs with the first deferred send. *)
Inductive ListeningListener : Type :=
| bound_callback
| flush_queue.

(** Callback of [socket.send]. *)
Inductive SendCallback : Type :=
| sent_callback.

Inductive BindState : Type :=
| BIND_STATE_UNBOUND
| BIND_STATE_BINDING
| BIND_STATE_BOUND.

Module Datagram.
Record t : Type := make {
  packet : Buffer;
  port : Z;
  address : string
}.
End Datagram.

(** Operations issued while the socket is not bound yet. *)
Inductive Deferred : Type :=
| deferred_send (d : Datagram.t) (cb : SendCallback)
| deferred_close.

Module Socket.
Record t : Type := make {
  bindState : BindState;
  broadcast : bool;
  closed : bool;
  listening_listeners : list ListeningListener;
  error_listeners : list ErrorListener;
  queue : option (list Deferred)
}.

(** [dgram.createSocket('udp4')]. *)
Definition fresh : t :=
  make BIND_STATE_UNBOUND false false [] [] None.

Definition set_bindState (b : BindState) (s : t) : t :=
  make b (broadcast s) (closed s) (listening_listeners s)
       (error_listeners s) (queue s).
Definition set_broadcast (b : bool) (s : t) : t :=
  make (bindState s) b (closed s) (listening_listeners s)
       (error_listeners s) (queue s).
Definition set_closed (b : bool) (s : t) : t :=
  make (bindState s) (broadcast s) b (listening_listeners s)
       (error_listeners s) (queue s).
Definition set_listening_listeners (l : list ListeningListener) (s : t) : t :=
  make (bindState s) (broadcast s) (closed s) l (error_listeners s) (queue s).
Definition set_error_listeners (l : list ErrorListener) (s : t) : t :=
  make (bindState s) (broadcast s) (closed s) (listening_listeners s) l
       (queue s).
Definition set_queue (q : option (list Deferred)) (s : t) : t :=
  make (bindState s) (broadcast s) (closed s) (listening_listeners s)
       (error_listeners s) q.
End Socket.

(** The state of a promise. *)
Inductive Promise (A : Type) : Type :=
| Pending
| Fulfilled (value : A)
| Rejected (message : string).
Arguments Pending {A}.
Arguments Fulfilled {A} value.
Arguments Rejected {A} message.

(** What one send attempt does, in the order in which it does it. *)
Inductive Event : Type :=
| CreateSocket
| Bind (address : option string)
| SetBroadcast (flag : bool)
| Send (d : Datagram.t)
| Transmit (d : Datagram.t) (broadcast_enabled : bool)
| Close
| Resolve
| Reject (message : string)
| Throw (message : string)
| Deliver (outcome : Promise unit).

(** Completions that the runtime still owes to the attempt. *)
Inductive Task : Type :=
| bind_completes
| send_completes (d : Datagram.t) (cb : SendCallback).

(** What the network does to the attempt: [None] is success, [Some m] an
    error with message [m]. *)
Module Network.
Record t : Type := make {
  bind_error : option string;
  send_error : option string
}.
End Network.

Module World.
Record t : Type := make {
  socket : option Socket.t;
  promise : Promise unit;
  delivered : bool;
  tasks : list Task;
  trace : list Event;
  thrown : option string
}.

Definition initial : t := make None Pending false [] [] None.

Definition set_socket (s : option Socket.t) (w : t) : t :=
  make s (promise w) (delivered w) (tasks w) (trace w) (thrown w).
Definition set_promise (p : Promise unit) (w : t) : t :=
  make (socket w) p (delivered w) (tasks w) (trace w) (thrown w).
Definition set_delivered (b : bool) (w : t) : t :=
  make (socket w) (promise w) b (tasks w) (trace w) (thrown w).
Definition set_tasks (l : list Task) (w : t) : t :=
  make (socket w) (promise w) (delivered w) l (trace w) (thrown w).
Definition set_trace (l : list Event) (w : t) : t :=
  make (socket w) (promise w) (delivered w) (tasks w) l (thrown w).
Definition set_thrown (e : option string) (w : t) : t :=
  make (socket w) (promise w) (delivered w) (tasks w) (trace w) e.
End World.

(** A command transforms the world. Commands run one after the other,
    until one of them throws: [World.thrown] holds the message of an
    exception that is propagating. *)
Definition Cmd : Type := World.t -> World.t.

Definition skip : Cmd := fun w => w.

Definition seq_cmd (c1 c2 : Cmd) : Cmd :=
  fun w =>
    let w1 := c1 w in
    match World.thrown w1 with
    | Some _ => w1
    | None => c2 w1
    end.

Declare Scope cmd_scope.
Delimit Scope cmd_scope with cmd.
Bind Scope cmd_scope with Cmd.
Notation "c1 ;; c2" := (seq_cmd c1 c2)
  (at level 61, right associativity) : cmd_scope.
Local Open Scope cmd_scope.

Definition emit (e : Event) : Cmd :=
  fun w => World.set_trace (World.trace w ++ [e]) w.

Definition throw (message : string) : Cmd :=
  fun w => World.set_thrown (Some message) (emit (Throw message) w).

Definition schedule (t : Task) : Cmd :=
  fun w => World.set_tasks (World.tasks w ++ [t]) w.

(** Run [f] on the socket of the attempt. *)
Definition on_socket (f : Socket.t -> Cmd) : Cmd :=
  fun w =>
    match World.socket w with
    | Some s => f s w
    | None => w
    end.

Definition update_socket (f : Socket.t -> Socket.t) : Cmd :=
  on_socket (fun s w => World.set_socket (Some (f s)) w).

(** *** Promise *)

(** Only the first call of [resolve] or [reject] settles the promise. *)
Definition settle (r : Promise unit) : Cmd :=
  fun w =>
    match World.promise w with
    | Pending => World.set_promise r w
    | _ => w
    end.

Definition resolve : Cmd := emit Resolve ;; settle (Fulfilled tt).

Definition reject (message : string) : Cmd :=
  emit (Reject message) ;; settle (Rejected message).

(** [new Promise(executor)]: the executor runs at once, and what it throws
    rejects the promise. *)
Definition new_Promise (executor : Cmd) : Cmd :=
  fun w =>
    let w1 := executor w in
    match World.thrown w1 with
    | Some message => settle (Rejected message) (World.set_thrown None w1)
    | None => w1
    end.

(** The reactions of a settled promise run once the current job is over.
    They run here right after the job that settled the promise; the runtime
    may run before them the completions that are already due, such as the
    binding to a literal address, so the place of [Deliver] among the later
    events of the socket carries no meaning. *)
Definition checkpoint : Cmd :=
  fun w =>
    match World.promise w, World.delivered w with
    | Pending, _ => w
    | _, true => w
    | r, false => emit (Deliver r) (World.set_delivered true w)
    end.

(** *** Socket operations *)

Definition createSocket : Cmd :=
  emit CreateSocket ;; World.set_socket (Some Socket.fresh).

(** [socket.on('error', l)]. *)
Definition socket_on_error (l : ErrorListener) : Cmd :=
  update_socket (fun s =>
    Socket.set_error_listeners (Socket.error_listeners s ++ [l]) s).

(** [socket.bind(bindOptions, cb)]: the callback becomes a ['listening']
    listener and the binding completes in a later job. *)
Definition socket_bind (address : option string) (cb : ListeningListener)
    : Cmd :=
  emit (Bind address) ;;
  update_socket (fun s =>
    Socket.set_listening_listeners (Socket.listening_listeners s ++ [cb])
      (Socket.set_bindState BIND_STATE_BINDING s)) ;;
  schedule bind_completes.

Definition socket_setBroadcast (flag : bool) : Cmd :=
  emit (SetBroadcast flag) ;;
  update_socket (Socket.set_broadcast flag).

(** An operation issued before the socket is bound waits in the queue; the
    first one installs the listener that flushes the queue. *)
Definition enqueue (op : Deferred) : Cmd :=
  update_socket (fun s =>
    match Socket.queue s with
    | None =>
        Socket.set_queue (Some [op])
          (Socket.set_listening_listeners
             (Socket.listening_listeners s ++ [flush_queue]) s)
    | Some q => Socket.set_queue (Some (q ++ [op])) s
    end).

(** The bound socket takes up a datagram: the resolution of its
    destination and its hand-over to the network are due in a later job. A
    closed socket takes nothing up. *)
Definition transmit (d : Datagram.t) (cb : SendCallback) : Cmd :=
  on_socket (fun s =>
    if Socket.closed s then skip
    else schedule (send_completes d cb)).

(** A destination port is a whole number from 1 to 65535. *)
Definition valid_port (port : Z) : bool :=
  ((0 <? port) && (port <=? 65535))%bool.

(** The error of a port out of range, named by its code; its message in
    the runtime is a sentence that quotes the port. *)
Definition bad_port_message : string := "ERR_SOCKET_BAD_PORT".

(** [socket.send(msg, 0, msg.length, port, address, cb)]: the port is
    checked first, and a port out of range is an exception thrown to the
    caller; otherwise the datagram leaves now or waits for the binding. *)
Definition socket_send (d : Datagram.t) (cb : SendCallback) : Cmd :=
  emit (Send d) ;;
  if valid_port (Datagram.port d) then
    on_socket (fun s =>
      match Socket.bindState s with
      | BIND_STATE_BOUND => transmit d cb
      | BIND_STATE_BINDING => enqueue (deferred_send d cb)
      | BIND_STATE_UNBOUND =>
          update_socket (Socket.set_bindState BIND_STATE_BINDING) ;;
          schedule bind_completes ;;
          enqueue (deferred_send d cb)
      end)
  else throw bad_port_message.

(** [socket.close()]: deferred as well while operations are waiting. *)
Definition socket_close : Cmd :=
  on_socket (fun s =>
    match Socket.queue s with
    | Some q =>
        update_socket (Socket.set_queue (Some (q ++ [deferred_close])))
    | None => emit Close ;; update_socket (Socket.set_closed true)
    end).

(* ===================================================================== *)
(** ** [sendCustomMagicPacket] *)
(* ===================================================================== *)

(** [socket.on('error', (err) => { reject(err); socket.close(); })]. *)
Definition call_error_listener (l : ErrorListener) (err : string) : Cmd :=
  match l with
  | socket_error_handler => reject err ;; socket_close
  end.

(** The callback of [socket.send]:
    [(err) => { if (err) reject(err); else resolve(); socket.close(); }]. *)
Definition call_send_callback (cb : SendCallback) (err : option string)
    : Cmd :=
  match cb with
  | sent_callback =>
      match err with
      | Some e => reject e
      | None => resolve
      end ;;
      socket_close
  end.

(** One deferred operation, run once the socket is bound. *)
Definition run_deferred (op : Deferred) : Cmd :=
  match op with
  | deferred_send d cb => transmit d cb
  | deferred_close => socket_close
  end.

Definition run_all {A : Type} (f : A -> Cmd) (l : list A) : Cmd :=
  fun w => fold_left (fun acc a => f a acc) l w.

(** The ['listening'] listeners: the callback of [socket.bind] is
    [() => { socket.setBroadcast(true); }]. *)
Definition call_listening_listener (l : ListeningListener) : Cmd :=
  match l with
  | bound_callback => socket_setBroadcast true
  | flush_queue =>
      on_socket (fun s =>
        match Socket.queue s with
        | Some q =>
            update_socket (Socket.set_queue None) ;; run_all run_deferred q
        | None => skip
        end)
  end.

(** ['listening'] is emitted to the listeners in the order in which they
    were added; each of them listens once. *)
Definition emit_listening : Cmd :=
  on_socket (fun s =>
    update_socket (Socket.set_listening_listeners []) ;;
    run_all call_listening_listener (Socket.listening_listeners s)).

(** ['error']: the waiting operations are dropped, then the listeners run. *)
Definition emit_error (err : string) : Cmd :=
  on_socket (fun s =>
    update_socket (Socket.set_queue None) ;;
    run_all (fun l => call_error_listener l err) (Socket.error_listeners s)).

(** One job of the event loop. The send that completes stands for the
    resolution of the destination, the hand-over to the network and the call
    of the callback, which nothing of this socket can come between: the
    datagram leaves, [Transmit], only when none of them fails. *)
Definition run_task (net : Network.t) (t : Task) : Cmd :=
  match t with
  | bind_completes =>
      on_socket (fun s =>
        if Socket.closed s then skip
        else
          match Network.bind_error net with
          | Some e =>
              update_socket (Socket.set_bindState BIND_STATE_UNBOUND) ;;
              emit_error e
          | None =>
              update_socket (Socket.set_bindState BIND_STATE_BOUND) ;;
              emit_listening
          end)
  | send_completes d cb =>
      on_socket (fun s =>
        if Socket.closed s then skip
        else
          match Network.send_error net with
          | Some e => call_send_callback cb (Some e)
          | None =>
              emit (Transmit d (Socket.broadcast s)) ;;
              call_send_callback cb None
          end)
  end.

(** The event loop: the oldest task runs as a job, then the promise
    reactions, until no task is left. *)
Fixpoint event_loop (fuel : nat) (net : Network.t) (w : World.t) : World.t :=
  match fuel with
  | O => w
  | S fuel' =>
      match World.tasks w with
      | [] => w
      | t :: rest =>
          event_loop fuel' net
            (checkpoint (run_task net t (World.set_tasks rest w)))
      end
  end.

(** The function passed to [new Promise], lines 131-213. *)
Definition executor (mac : string) (options : Options.t) : Cmd :=
  let opts_address :=
    or_default_str (Options.address options) "255.255.255.255" in
  let opts_port := or_default_num (Options.port options) 9 in
  let opts_interface := or_null (Options.interface options) in
  createSocket ;;
  socket_on_error socket_error_handler ;;
  let bindOptions := opts_interface in
  socket_bind bindOptions bound_callback ;;
  let macAddress := replace_separators mac in
  if invalid_format macAddress then
    reject "Invalid MAC address format" ;;
    socket_close
  else
    let magicPacket := build_magic_packet macAddress in
    socket_send (Datagram.make magicPacket opts_port opts_address)
      sent_callback.

(** Jobs that a world may still need: one per task, and one per deferred
    operation of its socket. *)
Definition pending_work (w : World.t) : nat :=
  (List.length (World.tasks w) +
   match World.socket w with
   | Some s =>
       match Socket.queue s with
       | Some q => List.length q
       | None => 0
       end
   | None => 0
   end)%nat.

(** The whole attempt with a given number of jobs allowed. *)
Definition attempt_with (fuel : nat) (mac : string) (options : Options.t)
    (net : Network.t) : World.t :=
  event_loop fuel net
    (checkpoint (new_Promise (executor mac options) World.initial)).

(** The whole attempt, [new Promise(executor)]: the executor runs, then the
    event loop runs the jobs the executor left behind. *)
Definition attempt (mac : string) (options : Options.t) (net : Network.t)
    : World.t :=
  let w := checkpoint (new_Promise (executor mac options) World.initial) in
  event_loop (pending_work w) net w.

(** The promise returned by [sendCustomMagicPacket], as the event loop
    leaves it. *)
Definition sendCustomMagicPacket (mac : string) (options : Options.t)
    (net : Network.t) : Promise unit :=
  World.promise (attempt mac options net).

(* ===================================================================== *)
(** ** Promise combinators used by the route *)
(* ===================================================================== *)

(** [p.then(f)] for a function that returns a plain value. *)
Definition then_ {A B : Type} (f : A -> B) (p : Promise A) : Promise B :=
  match p with
  | Pending => Pending
  | Fulfilled v => Fulfilled (f v)
  | Rejected m => Rejected m
  end.

(** [p.catch(g)], where [g] receives the message of the error. *)
Definition catch_ {A : Type} (g : string -> A) (p : Promise A) : Promise A :=
  match p with
  | Rejected m => Fulfilled (g m)
  | _ => p
  end.

(** [Promise.all(ps)]: rejected as soon as one member is (the first one in
    the order of [ps] stands for it), fulfilled with all the values, in the
    order of [ps], once every member is. *)
Fixpoint Promise_all {A : Type} (ps : list (Promise A)) : Promise (list A) :=
  match ps with
  | [] => Fulfilled []
  | p :: rest =>
      match p, Promise_all rest with
      | Rejected m, _ => Rejected m
      | _, Rejected m => Rejected m
      | Pending, _ => Pending
      | _, Pending => Pending
      | Fulfilled v, Fulfilled vs => Fulfilled (v :: vs)
      end
  end.

(* ===================================================================== *)
(** ** The [/wakeup] route *)
(* ===================================================================== *)

(** One entry of [os.networkInterfaces()]. *)
Module NetworkInterfaceInfo.
Record t : Type := make {
  address : string;
  family : string;
  internal : bool
}.
End NetworkInterfaceInfo.

(** [req.body]. *)
Module Request.
Record t : Type := make {
  macAddress : option string;
  port : option Z;
  interface : option string;
  method : option string;
  useAllInterfaces : bool;
  broadcastAddr : option string
}.
End Request.

(** [process.env]. *)
Module Env.
Record t : Type := make {
  SERVER_MAC : option string;
  WOL_BROADCAST_ADDR : option string
}.
End Env.

(** [{ success, error }]. *)
Module SendResult.
Record t : Type := make {
  success : bool;
  error : option string
}.
End SendResult.

(** [{ interface, address, success, error }]. *)
Module InterfaceResult.
Record t : Type := make {
  interface : string;
  address : string;
  success : bool;
  error : option string
}.
End InterfaceResult.

(** [results.custom] is either one result or an array of results. *)
Inductive CustomResults : Type :=
| custom_single (r : SendResult.t)
| custom_array (rs : list InterfaceResult.t).

(** [results]; [null] is [None]. *)
Module Results.
Record t : Type := make {
  library : option SendResult.t;
  custom : option CustomResults
}.
End Results.

Module Response.
Record t : Type := make {
  status : Z;
  success : bool;
  message : string;
  details : option Results.t
}.
End Response.

(** The answer [res.status(400).json({ success: false, message: 'MAC
    address not provided' })] of the guard [if (!mac)]. *)
Definition missing_address : Response.t :=
  Response.make 400 false "MAC address not provided" None.

(** What the route asks of the two senders. *)
Inductive HandlerEvent : Type :=
| LibraryWake (mac : string) (options : Options.t)
| CustomAttempt (mac : string) (options : Options.t) (events : list Event).

(** [method === name]. *)
Definition method_is (method : option string) (name : string) : bool :=
  match method with
  | Some m => String.eqb m name
  | None => false
  end.

(** [anySuccess], lines 337-343. *)
Definition anySuccess (results : Results.t) : bool :=
  (match Results.library results with
   | Some r => SendResult.success r
   | None => false
   end
   ||
   match Results.custom results with
   | Some (custom_array rs) => existsb InterfaceResult.success rs
   | Some (custom_single r) => SendResult.success r
   | None => false
   end)%bool.

(** [{ ...options, interface: address }]. *)
Definition with_interface (options : Options.t) (address : string)
    : Options.t :=
  Options.make (Options.address options) (Options.port options) (Some address).

(** One element of [sendPromises], with the attempt behind it. *)
Module Dispatched.
Record t : Type := make {
  name : string;
  iface : NetworkInterfaceInfo.t;
  options : Options.t;
  world : World.t;
  promise : Promise InterfaceResult.t
}.
End Dispatched.

Section Wakeup.

(** The environment of the process and of the host. *)
Variable env : Env.t.
Variable networkInterfaces : list (string * list NetworkInterfaceInfo.t).

(** The outcome of [wol.wake(mac, options, cb)] of the [wake_on_lan]
    package: the callback is called without or with an error. *)
Variable wol_wake : string -> Options.t -> Promise unit.

(** What the network does to the k-th custom attempt of the request. Each
    attempt has a socket and a promise of its own and shares no state with
    the others, so each one is run in a world of its own. *)
Variable network : nat -> Network.t.

(** [try { v = await p } catch (error) { v = on_error(error.message) }];
    [None] is a route that waits forever for [p]. *)
Definition try_await {A : Type} (p : Promise A) (on_error : string -> A)
    : option A :=
  match p with
  | Pending => None
  | Fulfilled v => Some v
  | Rejected m => Some (on_error m)
  end.

(** The library attempt, lines 276-295: the value left in
    [results.library]. *)
Definition library_result (mac : string) (options : Options.t)
    : option SendResult.t :=
  try_await
    (then_ (fun _ => SendResult.make true None) (wol_wake mac options))
    (fun m => SendResult.make false (Some m)).

(** The element pushed on [sendPromises] for one interface, lines 310-319;
    it is the [k]-th custom attempt of the request. *)
Definition dispatched (mac : string) (options : Options.t) (k : nat)
    (name : string) (iface : NetworkInterfaceInfo.t) : Dispatched.t :=
  let address := NetworkInterfaceInfo.address iface in
  let interfaceOptions := with_interface options address in
  let w := attempt mac interfaceOptions (network k) in
  let p :=
    catch_ (fun m => InterfaceResult.make name address false (Some m))
      (then_ (fun _ => InterfaceResult.make name address true None)
         (World.promise w)) in
  Dispatched.make name iface interfaceOptions w p.

(** The body of the inner loop, lines 306-321. *)
Definition dispatch_entry (mac : string) (options : Options.t) (name : string)
    (iface : NetworkInterfaceInfo.t) (sendPromises : list Dispatched.t)
    : list Dispatched.t :=
  if (String.eqb (NetworkInterfaceInfo.family iface) "IPv4"
      && negb (NetworkInterfaceInfo.internal iface))%bool
  then
    sendPromises ++
    [dispatched mac options (List.length sendPromises) name iface]
  else sendPromises.

(** The two loops over [Object.entries(networkInterfaces)], lines 303-322. *)
Definition dispatch (mac : string) (options : Options.t) : list Dispatched.t :=
  fold_left
    (fun sendPromises entry =>
       fold_left
         (fun sendPromises iface =>
            dispatch_entry mac options (fst entry) iface sendPromises)
         (snd entry) sendPromises)
    networkInterfaces [].

Definition attempt_event (mac : string) (d : Dispatched.t) : HandlerEvent :=
  CustomAttempt mac (Dispatched.options d) (World.trace (Dispatched.world d)).

(** The custom attempt or attempts, lines 298-334: the value left in
    [results.custom] and what was asked of the sender. *)
Definition custom_results (mac : string) (options : Options.t)
    (useAllInterfaces : bool) : option CustomResults * list HandlerEvent :=
  if useAllInterfaces then
    let sendPromises := dispatch mac options in
    (try_await
       (then_ custom_array (Promise_all (map Dispatched.promise sendPromises)))
       (fun m => custom_single (SendResult.make false (Some m))),
     map (attempt_event mac) sendPromises)
  else
    let w := attempt mac options (network 0) in
    (try_await
       (then_ (fun _ => custom_single (SendResult.make true None))
          (World.promise w))
       (fun m => custom_single (SendResult.make false (Some m))),
     [CustomAttempt mac options (World.trace w)]).

(** The end of the route, lines 345-357. *)
Definition respond (results : Results.t) : Response.t :=
  if anySuccess results then
    Response.make 200 true "Wake-on-LAN packet sent successfully" (Some results)
  else
    Response.make 500 false "Failed to send Wake-on-LAN packet" (Some results).

(** [!method || method === a || method === b]. *)
Definition method_selects (method : option string) (a b : string) : bool :=
  (falsy_str method || method_is method a || method_is method b)%bool.

(** The [options] of the request, lines 246-268: the destination comes
    from the environment, the port and the interface from the body. *)
Definition request_options (body : Request.t) : Options.t :=
  let broadcastAddr :=
    or_default_str (Env.WOL_BROADCAST_ADDR env) "255.255.255.255" in
  let wolPort := or_default_num (Request.port body) 9 in
  let networkInterface := Request.interface body in
  Options.make (Some broadcastAddr) (Some wolPort) (or_null networkInterface).

(** The route once the address is known, lines 246-357. *)
Definition wake (mac : string) (body : Request.t)
    : option Response.t * list HandlerEvent :=
  let options := request_options body in
  let method := Request.method body in
  let (results_library, asked_library) :=
    if method_selects method "library" "both"
    then (option_map Some (library_result mac options),
          [LibraryWake mac options])
    else (Some None, []) in
  match results_library with
  | None => (None, asked_library)
  | Some results_library =>
      let (results_custom, asked_custom) :=
        if method_selects method "custom" "both"
        then
          let (r, asked) :=
            custom_results mac options (Request.useAllInterfaces body) in
          (option_map Some r, asked)
        else (Some None, []) in
      (option_map
         (fun results_custom =>
            respond (Results.make results_library results_custom))
         results_custom,
       asked_library ++ asked_custom)
  end.

(** [app.post('/wakeup', ...)]: the response, if any, and what was asked
    of the senders, in order. *)
Definition wakeup (body : Request.t) : option Response.t * list HandlerEvent :=
  let mac := or_str (Request.macAddress body) (Env.SERVER_MAC env) in
  match mac with
  | Some mac =>
      if truthy_str mac then wake mac body
      else (Some missing_address, [])
  | None => (Some missing_address, [])
  end.

End Wakeup.

(** The first version of the service, [index.js]: the library is the only
    sender. *)
Module IndexJs.
Section Wakeup.

Variable env : Env.t.
Variable wol_wake : string -> Promise unit.

Definition wakeup (body : Request.t) : option Response.t * list HandlerEvent :=
  let mac := or_str (Request.macAddress body) (Env.SERVER_MAC env) in
  match mac with
  | Some mac =>
      if truthy_str mac then
        (match wol_wake mac with
         | Pending => None
         | Fulfilled _ =>
             Some (Response.make 200 true
                     "Wake-on-LAN packet sent successfully" None)
         | Rejected m =>
             Some (Response.make 500 false
                     ("Error sending Wake-on-LAN packet: " ++ m)%string None)
         end,
         [LibraryWake mac (Options.make None None None)])
      else (Some missing_address, [])
  | None => (Some missing_address, [])
  end.

End Wakeup.
End IndexJs.

(* ===================================================================== *)
(** ** The runs of a send attempt, named *)
(* ===================================================================== *)

(** The datagram that a well-formed address leads to. *)
Definition datagram_of (mac : string) (options : Options.t) : Datagram.t :=
  Datagram.make (build_magic_packet (replace_separators mac))
    (or_default_num (Options.port options) 9)
    (or_default_str (Options.address options) "255.255.255.255").

(** The socket as each run leaves it. *)
Definition socket_after_rejection : Socket.t :=
  Socket.make BIND_STATE_BINDING false true [bound_callback]
    [socket_error_handler] None.

Definition socket_after_bind_error : Socket.t :=
  Socket.make BIND_STATE_UNBOUND false true [bound_callback; flush_queue]
    [socket_error_handler] None.

Definition socket_after_send : Socket.t :=
  Socket.make BIND_STATE_BOUND true true [] [socket_error_handler] None.

Definition socket_left_open : Socket.t :=
  Socket.make BIND_STATE_BOUND true false [] [socket_error_handler] None.

Definition socket_after_throw_and_bind_error : Socket.t :=
  Socket.make BIND_STATE_UNBOUND false true [bound_callback]
    [socket_error_handler] None.

(** The port that the attempt sends to. *)
Definition port_of (options : Options.t) : Z :=
  or_default_num (Options.port options) 9.

Definition invalid_message : string := "Invalid MAC address format".

(* ===================================================================== *)
(** ** Observations on a trace *)
(* ===================================================================== *)

(** The datagrams given to [socket.send], in order. *)
Definition sent_datagrams (tr : list Event) : list Datagram.t :=
  flat_map (fun e => match e with Send d => [d] | _ => [] end) tr.

(** The datagrams that left through the socket, in order. *)
Definition transmitted_datagrams (tr : list Event) : list Datagram.t :=
  flat_map (fun e => match e with Transmit d _ => [d] | _ => [] end) tr.

(** Socket input and output: creating, binding, sending. *)
Definition is_io (e : Event) : bool :=
  match e with
  | CreateSocket | Bind _ | Send _ | Transmit _ _ => true
  | _ => false
  end.

Definition is_create (e : Event) : bool :=
  match e with CreateSocket => true | _ => false end.

Definition is_close (e : Event) : bool :=
  match e with Close => true | _ => false end.

(** No socket is created, bound or sent on before a rejection. *)
Definition no_io_before_rejection (tr : list Event) : Prop :=
  forall pre m post, tr = pre ++ Reject m :: post ->
    forall e, In e pre -> is_io e = false.

(** Whenever a datagram leaves, the broadcast option is on, and it was
    turned on by an earlier [setBroadcast(true)]. *)
Definition broadcast_before_transmit (tr : list Event) : Prop :=
  forall pre d flag post, tr = pre ++ Transmit d flag :: post ->
    flag = true /\ In (SetBroadcast true) pre.

(* ===================================================================== *)
(** ** The hardware address as the specification words it *)
(* ===================================================================== *)

(** A hexadecimal digit, in either case. *)
Definition is_hex_digit (c : ascii) : bool :=
  existsb (Ascii.eqb c) (list_ascii_of_string "0123456789abcdefABCDEF").

(** The value of a hexadecimal digit: its position among the sixteen
    digits, whatever its case. *)
Definition hex_value (c : ascii) : Z :=
  let fix position (digits : list (ascii * ascii)) (k : Z) : Z :=
    match digits with
    | [] => 0
    | (lower, upper) :: rest =>
        if (Ascii.eqb c lower || Ascii.eqb c upper)%bool then k
        else position rest (k + 1)
    end in
  position
    (combine (list_ascii_of_string "0123456789abcdef")
             (list_ascii_of_string "0123456789ABCDEF")) 0.

(** Each adjacent pair of digits is one byte, the first digit being the
    high half. *)
Fixpoint decode_pairs (s : string) : list Z :=
  match s with
  | String hi (String lo rest) =>
      (16 * hex_value hi + hex_value lo) :: decode_pairs rest
  | _ => []
  end.

(** Exactly twelve hexadecimal digits once the separators are gone. *)
Definition well_formed (mac : string) : Prop :=
  String.length (replace_separators mac) = 12%nat /\
  Forall (fun c => is_hex_digit c = true)
    (list_ascii_of_string (replace_separators mac)).

(** The six bytes of a well-formed address. *)
Definition address_bytes (mac : string) : list Z :=
  decode_pairs (replace_separators mac).

(* ===================================================================== *)
(** ** The report as the specification words it *)
(* ===================================================================== *)

(** An interface entry qualifies when it is IPv4 and not internal. *)
Definition qualifies (iface : NetworkInterfaceInfo.t) : bool :=
  (String.eqb (NetworkInterfaceInfo.family iface) "IPv4"
   && negb (NetworkInterfaceInfo.internal iface))%bool.

(** The qualifying entries, each with the name it is listed under, in the
    order of the enumeration. *)
Definition qualifying
    (networkInterfaces : list (string * list NetworkInterfaceInfo.t))
    : list (string * NetworkInterfaceInfo.t) :=
  flat_map
    (fun entry => map (pair (fst entry)) (filter qualifies (snd entry)))
    networkInterfaces.

(** The success flags of the attempts that a report aggregates: the
    library attempt, the single custom attempt, the custom attempts made
    interface by interface. *)
Definition attempt_successes (results : Results.t) : list bool :=
  match Results.library results with
  | Some r => [SendResult.success r]
  | None => []
  end ++
  match Results.custom results with
  | Some (custom_single r) => [SendResult.success r]
  | Some (custom_array rs) => map InterfaceResult.success rs
  | None => []
  end.

(** The outcome of an attempt, read off the address, the port and the
    network. *)
Definition attempt_outcome (mac : string) (options : Options.t)
    (net : Network.t) : Promise unit :=
  if invalid_format (replace_separators mac) then Rejected invalid_message
  else if negb (valid_port (port_of options)) then Rejected bad_port_message
  else
    match Network.bind_error net with
    | Some e => Rejected e
    | None =>
        match Network.send_error net with
        | Some e => Rejected e
        | None => Fulfilled tt
        end
    end.

(** The destination configured for the process. *)
Definition configured_destination (env : Env.t) : string :=
  or_default_str (Env.WOL_BROADCAST_ADDR env) "255.255.255.255".

(** A request with another [broadcastAddr] and nothing else changed. *)
Definition with_broadcastAddr (b : option string) (body : Request.t)
    : Request.t :=
  Request.make (Request.macAddress body) (Request.port body)
    (Request.interface body) (Request.method body)
    (Request.useAllInterfaces body) b.

(** Everything asked of a sender goes to the destination [dest]. *)
Definition goes_to (dest : string) (e : HandlerEvent) : Prop :=
  match e with
  | LibraryWake _ options => Options.address options = Some dest
  | CustomAttempt _ options events =>
      Options.address options = Some dest /\
      Forall (fun d => Datagram.address d = dest)
        (sent_datagrams events ++ transmitted_datagrams events)
  end.

Section ReportModel.

Variable network : nat -> Network.t.
Variable mac : string.
Variable options : Options.t.

(** The elements pushed for a list of qualifying entries, the first of
    them being the [k]-th attempt. *)
Fixpoint dispatched_from (k : nat) (qs : list (string * NetworkInterfaceInfo.t))
    : list Dispatched.t :=
  match qs with
  | [] => []
  | q :: rest =>
      dispatched network mac options k (fst q) (snd q)
      :: dispatched_from (S k) rest
  end.

(** The entry of the report for the [k]-th attempt. *)
Definition report_entry (k : nat) (q : string * NetworkInterfaceInfo.t)
    : InterfaceResult.t :=
  match
    attempt_outcome mac
      (with_interface options (NetworkInterfaceInfo.address (snd q)))
      (network k)
  with
  | Rejected m =>
      InterfaceResult.make (fst q) (NetworkInterfaceInfo.address (snd q))
        false (Some m)
  | _ =>
      InterfaceResult.make (fst q) (NetworkInterfaceInfo.address (snd q))
        true None
  end.

Fixpoint report_from (k : nat) (qs : list (string * NetworkInterfaceInfo.t))
    : list InterfaceResult.t :=
  match qs with
  | [] => []
  | q :: rest => report_entry k q :: report_from (S k) rest
  end.

End ReportModel.

(* ===================================================================== *)
(** ** The interface list of the test page *)
(* ===================================================================== *)

(** One element of [interfaces] in the [/test] route: [{ name, address }]. *)
Module TestInterface.
Record t : Type := make {
  name : string;
  address : string
}.
End TestInterface.


(* ===================================================================== *)
(** ** Further observations on traces and requests *)
(* ===================================================================== *)

Definition is_bind (e : Event) : bool :=
  match e with Bind _ => true | _ => false end.

Definition is_deliver (e : Event) : bool :=
  match e with Deliver _ => true | _ => false end.

(** The events that call a method of the socket. *)
Definition uses_socket (e : Event) : bool :=
  match e with
  | Bind _ | SetBroadcast _ | Send _ | Transmit _ _ | Close => true
  | _ => false
  end.

(** Nothing is done with the socket once it has been closed. *)
Definition no_use_after_close (tr : list Event) : Prop :=
  forall pre post, tr = pre ++ Close :: post ->
    forall e, In e post -> uses_socket e = false.

(** The first event of a trace that settles the promise, with the state it
    settles it in. *)
Fixpoint first_settlement (tr : list Event) : option (Promise unit) :=
  match tr with
  | [] => None
  | Resolve :: _ => Some (Fulfilled tt)
  | Reject m :: _ => Some (Rejected m)
  | Throw m :: _ => Some (Rejected m)
  | _ :: rest => first_settlement rest
  end.

(** The address resolved by [macAddress || process.env.SERVER_MAC], when
    there is one: [None] is the case [!mac]. *)
Definition effective_mac (env : Env.t) (body : Request.t) : option string :=
  match or_str (Request.macAddress body) (Env.SERVER_MAC env) with
  | Some m => if truthy_str m then Some m else None
  | None => None
  end.

(** A request with another [macAddress] and nothing else changed. *)
Definition with_macAddress (m : option string) (body : Request.t)
    : Request.t :=
  Request.make m (Request.port body) (Request.interface body)
    (Request.method body) (Request.useAllInterfaces body)
    (Request.broadcastAddr body).

(** A request with another [interface] and nothing else changed. *)
Definition with_request_interface (i : option string) (body : Request.t)
    : Request.t :=
  Request.make (Request.macAddress body) (Request.port body) i
    (Request.method body) (Request.useAllInterfaces body)
    (Request.broadcastAddr body).

(** Everything asked of a sender is for the port [port]. *)
Definition for_port (port : Z) (e : HandlerEvent) : Prop :=
  match e with
  | LibraryWake _ options => Options.port options = Some port
  | CustomAttempt _ options events =>
      Options.port options = Some port /\
      Forall (fun d => Datagram.port d = port)
        (sent_datagrams events ++ transmitted_datagrams events)
  end.

Definition is_library_wake (e : HandlerEvent) : bool :=
  match e with LibraryWake _ _ => true | _ => false end.

Definition is_custom_attempt (e : HandlerEvent) : bool :=
  match e with CustomAttempt _ _ _ => true | _ => false end.

(* ===================================================================== *)
(** ** An attempt for any first argument *)
(* ===================================================================== *)





(* ===================================================================== *)
(** ** Validation *)
(* ===================================================================== *)

Ltac each_ascii c := destruct c as [[] [] [] [] [] [] [] []].

Lemma in_class_is_hex_digit (c : ascii) :
  in_class_0_9_A_F c = is_hex_digit c.
Proof. each_ascii c; reflexivity. Qed.

Lemma match_class_times_spec (n : nat) (s : string) :
  match_class_times n s = true <->
  String.length s = n /\
  Forall (fun c => is_hex_digit c = true) (list_ascii_of_string s).
Proof.
  revert s; induction n as [|n IH]; intros [|c s]; simpl.
  - split; [intros _; split; [reflexivity | constructor] | reflexivity].
  - split; [discriminate | intros [H _]; discriminate].
  - split; [discriminate | intros [H _]; discriminate].
  - rewrite andb_true_iff, IH, in_class_is_hex_digit. split.
    + intros [Hc [Hl Hf]]. split; [congruence | constructor; assumption].
    + intros [Hl Hf]. inversion Hf; subst. repeat split; congruence.
Qed.

Lemma invalid_format_false (mac : string) :
  invalid_format (replace_separators mac) = false <-> well_formed mac.
Proof.
  unfold invalid_format, well_formed, regex_hex12_test.
  rewrite orb_false_iff, !negb_false_iff, Nat.eqb_eq, match_class_times_spec.
  tauto.
Qed.

Lemma invalid_format_true (mac : string) :
  invalid_format (replace_separators mac) = true <-> ~ well_formed mac.
Proof.
  rewrite <- invalid_format_false.
  destruct (invalid_format (replace_separators mac)); split; intros H;
    try reflexivity; try discriminate; try (intros H'; discriminate).
  exfalso; apply H; reflexivity.
Qed.

(* ===================================================================== *)
(** ** The bytes of the packet *)
(* ===================================================================== *)

Lemma fill_packet_layout (byte_of : nat -> Z) :
  fill_packet byte_of =
  repeat 255 6 ++ List.concat (repeat (map byte_of (seq 0 6)) 16).
Proof. reflexivity. Qed.

Lemma digit_value_hex (c : ascii) :
  is_hex_digit c = true -> digit_value c = Some (hex_value c).
Proof. each_ascii c; intros H; try discriminate H; reflexivity. Qed.

Lemma hex_value_range (c : ascii) :
  is_hex_digit c = true -> 0 <= hex_value c < 16.
Proof.
  each_ascii c; intros H; try discriminate H; vm_compute; split; congruence.
Qed.

Lemma trim_start_hex (c : ascii) (s : string) :
  is_hex_digit c = true -> trim_start (String c s) = String c s.
Proof. each_ascii c; intros H; try discriminate H; reflexivity. Qed.

Lemma strip_sign_hex (c : ascii) (s : string) :
  is_hex_digit c = true -> strip_sign (String c s) = (1, String c s).
Proof. each_ascii c; intros H; try discriminate H; reflexivity. Qed.

Lemma strip_0x_hex (a b : ascii) (s : string) :
  is_hex_digit b = true ->
  strip_0x (String a (String b s)) = String a (String b s).
Proof.
  intros H. each_ascii a; try reflexivity.
  each_ascii b; try discriminate H; reflexivity.
Qed.

(** [parseInt] of two hexadecimal digits. *)
Lemma parseInt16_pair (a b : ascii) :
  is_hex_digit a = true -> is_hex_digit b = true ->
  parseInt16 (String a (String b "")) = Some (16 * hex_value a + hex_value b).
Proof.
  intros Ha Hb. unfold parseInt16.
  rewrite (trim_start_hex _ _ Ha), (strip_sign_hex _ _ Ha).
  rewrite (strip_0x_hex _ _ _ Hb).
  cbn [parse_digits]. rewrite (digit_value_hex _ Ha), (digit_value_hex _ Hb).
  f_equal. lia.
Qed.

Lemma mac_byte_pair (a b : ascii) :
  is_hex_digit a = true -> is_hex_digit b = true ->
  to_uint8 (parseInt16 (String a (String b ""))) =
  16 * hex_value a + hex_value b.
Proof.
  intros Ha Hb. rewrite (parseInt16_pair _ _ Ha Hb). unfold to_uint8.
  pose proof (hex_value_range _ Ha). pose proof (hex_value_range _ Hb).
  apply Z.mod_small. lia.
Qed.

(** The six stored bytes are the six decoded pairs. *)
Lemma mac_bytes_decode (s : string) :
  String.length s = 12%nat ->
  Forall (fun c => is_hex_digit c = true) (list_ascii_of_string s) ->
  map (mac_byte s) (seq 0 6) = decode_pairs s.
Proof.
  intros Hl Hf.
  do 12 (destruct s as [|? s]; [discriminate Hl|]).
  destruct s; [|discriminate Hl].
  cbn [list_ascii_of_string] in Hf.
  repeat match goal with
         | H : Forall _ (_ :: _) |- _ => inversion H; clear H; subst
         end.
  unfold mac_byte. cbn [map seq Nat.mul Nat.add substring decode_pairs].
  repeat rewrite mac_byte_pair by assumption.
  reflexivity.
Qed.

Lemma decode_pairs_length (s : string) :
  String.length s = 12%nat -> List.length (decode_pairs s) = 6%nat.
Proof.
  intros Hl.
  do 12 (destruct s as [|? s]; [discriminate Hl|]).
  destruct s; [reflexivity | discriminate Hl].
Qed.

Lemma decode_pairs_bytes (s : string) :
  Forall (fun c => is_hex_digit c = true) (list_ascii_of_string s) ->
  Forall (fun b => 0 <= b < 256) (decode_pairs s).
Proof.
  revert s.
  fix IH 1. intros [|a [|b s]] Hf; cbn [decode_pairs]; try constructor.
  - cbn [list_ascii_of_string] in Hf. inversion Hf as [|? ? Ha Hf']; subst.
    inversion Hf' as [|? ? Hb Hf'']; subst.
    pose proof (hex_value_range _ Ha). pose proof (hex_value_range _ Hb). lia.
  - apply IH. cbn [list_ascii_of_string] in Hf.
    inversion Hf as [|? ? Ha Hf']; subst. inversion Hf'; subst. assumption.
Qed.

(* ===================================================================== *)
(** ** The runs of one send attempt *)
(* ===================================================================== *)

Ltac run_attempt H :=
  unfold attempt, attempt_with, new_Promise, executor, datagram_of, port_of;
  rewrite H;
  cbv -[build_magic_packet replace_separators or_default_str
        or_default_num or_null].

Ltac run_attempt_to_send H Hp :=
  unfold attempt, attempt_with, new_Promise, executor, socket_send,
    datagram_of, port_of in *;
  rewrite H; cbn [Datagram.port]; rewrite Hp;
  cbv -[build_magic_packet replace_separators or_default_str
        or_default_num or_null].

(** Run 1: the address is rejected. *)
Lemma attempt_invalid (mac : string) (options : Options.t) (net : Network.t) :
  invalid_format (replace_separators mac) = true ->
  attempt mac options net =
  World.make (Some socket_after_rejection) (Rejected invalid_message) true []
    [CreateSocket; Bind (or_null (Options.interface options));
     Reject invalid_message; Close; Deliver (Rejected invalid_message)]
    None.
Proof. intros H. run_attempt H. reflexivity. Qed.

(** Run 2: the binding fails. *)
Lemma attempt_bind_error (mac : string) (options : Options.t)
    (net : Network.t) (e : string) :
  invalid_format (replace_separators mac) = false ->
  valid_port (port_of options) = true ->
  Network.bind_error net = Some e ->
  attempt mac options net =
  World.make (Some socket_after_bind_error) (Rejected e) true []
    [CreateSocket; Bind (or_null (Options.interface options));
     Send (datagram_of mac options);
     Reject e; Close; Deliver (Rejected e)]
    None.
Proof.
  intros H Hp Hb. destruct net as [b s]; simpl in Hb; subst b.
  run_attempt_to_send H Hp. reflexivity.
Qed.

(** Run 3: the socket is bound and the send fails. *)
Lemma attempt_send_error (mac : string) (options : Options.t)
    (net : Network.t) (e : string) :
  invalid_format (replace_separators mac) = false ->
  valid_port (port_of options) = true ->
  Network.bind_error net = None ->
  Network.send_error net = Some e ->
  attempt mac options net =
  World.make (Some socket_after_send) (Rejected e) true []
    [CreateSocket; Bind (or_null (Options.interface options));
     Send (datagram_of mac options);
     SetBroadcast true; Reject e; Close; Deliver (Rejected e)]
    None.
Proof.
  intros H Hp Hb Hs. destruct net as [b s]; simpl in Hb, Hs; subst b s.
  run_attempt_to_send H Hp. reflexivity.
Qed.

(** Run 4: the datagram is sent. *)
Lemma attempt_sent (mac : string) (options : Options.t) (net : Network.t) :
  invalid_format (replace_separators mac) = false ->
  valid_port (port_of options) = true ->
  Network.bind_error net = None ->
  Network.send_error net = None ->
  attempt mac options net =
  World.make (Some socket_after_send) (Fulfilled tt) true []
    [CreateSocket; Bind (or_null (Options.interface options));
     Send (datagram_of mac options);
     SetBroadcast true; Transmit (datagram_of mac options) true;
     Resolve; Close; Deliver (Fulfilled tt)]
    None.
Proof.
  intros H Hp Hb Hs. destruct net as [b s]; simpl in Hb, Hs; subst b s.
  run_attempt_to_send H Hp. reflexivity.
Qed.

(** Run 5: [socket.send] throws because of the port, and the socket gets
    bound afterwards: nothing closes it. *)
Lemma attempt_bad_port (mac : string) (options : Options.t) (net : Network.t) :
  invalid_format (replace_separators mac) = false ->
  valid_port (port_of options) = false ->
  Network.bind_error net = None ->
  attempt mac options net =
  World.make (Some socket_left_open) (Rejected bad_port_message) true []
    [CreateSocket; Bind (or_null (Options.interface options));
     Send (datagram_of mac options);
     Throw bad_port_message; Deliver (Rejected bad_port_message);
     SetBroadcast true]
    None.
Proof.
  intros H Hp Hb. destruct net as [b s]; simpl in Hb; subst b.
  run_attempt_to_send H Hp. reflexivity.
Qed.

(** Run 6: [socket.send] throws because of the port, and the binding fails
    afterwards: the ['error'] listener closes the socket. *)
Lemma attempt_bad_port_bind_error (mac : string) (options : Options.t)
    (net : Network.t) (e : string) :
  invalid_format (replace_separators mac) = false ->
  valid_port (port_of options) = false ->
  Network.bind_error net = Some e ->
  attempt mac options net =
  World.make (Some socket_after_throw_and_bind_error)
    (Rejected bad_port_message) true []
    [CreateSocket; Bind (or_null (Options.interface options));
     Send (datagram_of mac options);
     Throw bad_port_message; Deliver (Rejected bad_port_message);
     Reject e; Close]
    None.
Proof.
  intros H Hp Hb. destruct net as [b s]; simpl in Hb; subst b.
  run_attempt_to_send H Hp. reflexivity.
Qed.

(** Case analysis over the runs of [attempt mac options net]. *)
Ltac attempt_runs mac options net :=
  let Hf := fresh "Hformat" in
  let Hp := fresh "Hport" in
  let Hb := fresh "Hbind" in
  let Hs := fresh "Hsend" in
  let e := fresh "e" in
  destruct (invalid_format (replace_separators mac)) eqn:Hf;
  [ rewrite (attempt_invalid mac options net Hf)
  | destruct (valid_port (port_of options)) eqn:Hp;
    [ destruct (Network.bind_error net) as [e|] eqn:Hb;
      [ rewrite (attempt_bind_error mac options net e Hf Hp Hb)
      | destruct (Network.send_error net) as [e|] eqn:Hs;
        [ rewrite (attempt_send_error mac options net e Hf Hp Hb Hs)
        | rewrite (attempt_sent mac options net Hf Hp Hb Hs) ] ]
    | destruct (Network.bind_error net) as [e|] eqn:Hb;
      [ rewrite (attempt_bad_port_bind_error mac options net e Hf Hp Hb)
      | rewrite (attempt_bad_port mac options net Hf Hp Hb) ] ] ].

(** *** Enough jobs *)

Lemma event_loop_idle (fuel : nat) (net : Network.t) (w : World.t) :
  World.tasks w = [] -> event_loop fuel net w = w.
Proof. intros H. destruct fuel; simpl; [|rewrite H]; reflexivity. Qed.

(** A loop that has emptied the task list does the same with more fuel. *)
Lemma event_loop_more (n : nat) (net : Network.t) :
  forall (w : World.t) (m : nat),
    World.tasks (event_loop n net w) = [] -> (n <= m)%nat ->
    event_loop m net w = event_loop n net w.
Proof.
  induction n as [|n IH]; intros w m Hq Hle.
  - simpl in *. apply event_loop_idle; assumption.
  - destruct m as [|m]; [lia|]. simpl in *.
    destruct (World.tasks w) as [|t rest]; [reflexivity|].
    apply IH; [assumption | lia].
Qed.

(** Every attempt comes to rest: no task is left when [attempt] stops. *)
Lemma attempt_quiescent (mac : string) (options : Options.t) (net : Network.t) :
  World.tasks (attempt mac options net) = [].
Proof. attempt_runs mac options net; reflexivity. Qed.

Lemma attempt_work_bound (mac : string) (options : Options.t) :
  (pending_work
     (checkpoint (new_Promise (executor mac options) World.initial)) <= 2)%nat.
Proof.
  unfold new_Promise, executor, socket_send.
  destruct (invalid_format (replace_separators mac));
    [|cbn [Datagram.port];
      destruct (valid_port (or_default_num (Options.port options) 9))];
    cbv -[build_magic_packet replace_separators or_default_str
          or_default_num or_null Nat.le]; lia.
Qed.

(** Two jobs are enough, and more jobs change nothing. *)
Lemma attempt_with_enough (fuel : nat) (mac : string) (options : Options.t)
    (net : Network.t) :
  (2 <= fuel)%nat ->
  attempt_with fuel mac options net = attempt mac options net.
Proof.
  intros Hf. unfold attempt_with.
  pose proof (attempt_quiescent mac options net) as Hq.
  pose proof (attempt_work_bound mac options) as Hw.
  unfold attempt in *. cbv zeta in *.
  apply event_loop_more; [assumption | lia].
Qed.

(* ===================================================================== *)
(** ** Properties of one send attempt *)
(* ===================================================================== *)

(** Decomposing a concrete trace around one of its events. *)
Lemma app_cons_cases {A : Type} (pre post : list A) (x a : A) (l : list A) :
  a :: l = pre ++ x :: post ->
  (pre = [] /\ a = x /\ l = post) \/
  (exists pre', pre = a :: pre' /\ l = pre' ++ x :: post).
Proof.
  destruct pre as [|b pre]; simpl; intros H; inversion H; subst.
  - left; auto.
  - right; eauto.
Qed.

Ltac split_trace H :=
  repeat match type of H with
         | _ :: _ = _ ++ _ :: _ =>
             apply app_cons_cases in H;
             destruct H as [(-> & H & ?) | (? & -> & H)];
             [try discriminate H; try (inversion H; subst; clear H) |]
         | [] = _ ++ _ :: _ => destruct (app_cons_not_nil _ _ _ H)
         end.

(** C1. For every hardware-address string that, once ':' and '-' are
    stripped, is exactly 12 hexadecimal digits in any case,
    [sendCustomMagicPacket] hands exactly one datagram to the socket; its
    packet is 102 bytes long, its first 6 bytes are 0xFF each, and its
    bytes 6..101 are the 6 decoded address bytes repeated 16 times. *)
Theorem C1_magic_packet_layout (mac : string) (options : Options.t)
    (net : Network.t) :
  well_formed mac ->
  exists d : Datagram.t,
    sent_datagrams (World.trace (attempt mac options net)) = [d] /\
    List.length (Datagram.packet d) = 102%nat /\
    firstn 6 (Datagram.packet d) = [255; 255; 255; 255; 255; 255] /\
    skipn 6 (Datagram.packet d) = List.concat (repeat (address_bytes mac) 16) /\
    List.length (address_bytes mac) = 6%nat /\
    Forall (fun b => 0 <= b < 256) (address_bytes mac).
Proof.
  intros Hwf. pose proof Hwf as [Hlen Hhex].
  apply invalid_format_false in Hwf.
  exists (datagram_of mac options). split.
  - attempt_runs mac options net; try discriminate; reflexivity.
  - unfold datagram_of, address_bytes. cbn [Datagram.packet].
    unfold build_magic_packet.
    rewrite fill_packet_layout, (mac_bytes_decode _ Hlen Hhex).
    pose proof (decode_pairs_length _ Hlen) as Hsix.
    split; [|split; [|split; [|split]]].
    + rewrite length_app, repeat_length, length_concat.
      rewrite map_repeat, Hsix. reflexivity.
    + reflexivity.
    + reflexivity.
    + exact Hsix.
    + apply decode_pairs_bytes; exact Hhex.
Qed.

Lemma C1_magic_packet_layout_witness :
  well_formed "00:11-22:aA:Bb:fF" /\
  exists d : Datagram.t,
    sent_datagrams
      (World.trace (attempt "00:11-22:aA:Bb:fF" (Options.make None None None)
                      (Network.make None None))) = [d] /\
    List.length (Datagram.packet d) = 102%nat /\
    firstn 6 (Datagram.packet d) = [255; 255; 255; 255; 255; 255] /\
    skipn 6 (Datagram.packet d) =
      List.concat (repeat (address_bytes "00:11-22:aA:Bb:fF") 16) /\
    List.length (address_bytes "00:11-22:aA:Bb:fF") = 6%nat /\
    Forall (fun b => 0 <= b < 256) (address_bytes "00:11-22:aA:Bb:fF").
Proof.
  assert (H : well_formed "00:11-22:aA:Bb:fF").
  { apply invalid_format_false. vm_compute. reflexivity. }
  split; [exact H | apply C1_magic_packet_layout; exact H].
Defined.

(** C3, as stated, fails: a malformed address is rejected with the
    invalid-address error, but [sendCustomMagicPacket] has by then created
    its socket and asked for the binding. At the input ["not-a-mac"] the
    events [CreateSocket] and [Bind] come before the rejection. *)
Lemma C3_counterexample :
  ~ (forall (mac : string) (options : Options.t) (net : Network.t),
       ~ well_formed mac ->
       sendCustomMagicPacket mac options net = Rejected invalid_message /\
       no_io_before_rejection (World.trace (attempt mac options net))).
Proof.
  intros H.
  destruct (H "not-a-mac" (Options.make None None None)
              (Network.make None None)) as [_ Hio].
  - intros Hwf. apply invalid_format_false in Hwf. vm_compute in Hwf.
    discriminate Hwf.
  - specialize (Hio [CreateSocket; Bind None] invalid_message
                    [Close; Deliver (Rejected invalid_message)]
                    eq_refl CreateSocket (or_introl eq_refl)).
    discriminate Hio.
Qed.

(** C3, amended. For every input string that is not exactly 12 hexadecimal
    digits once ':' and '-' are stripped, [sendCustomMagicPacket] rejects
    with the invalid-address error, and nothing is ever sent: the socket was
    created and its binding requested before the check, no datagram is given
    to it or leaves through it, and it is closed right after the
    rejection. *)
Theorem C3_invalid_address_rejected (mac : string) (options : Options.t)
    (net : Network.t) :
  ~ well_formed mac ->
  sendCustomMagicPacket mac options net = Rejected invalid_message /\
  World.trace (attempt mac options net) =
    [CreateSocket; Bind (or_null (Options.interface options));
     Reject invalid_message; Close; Deliver (Rejected invalid_message)] /\
  sent_datagrams (World.trace (attempt mac options net)) = [] /\
  transmitted_datagrams (World.trace (attempt mac options net)) = [].
Proof.
  intros Hwf. apply invalid_format_true in Hwf.
  unfold sendCustomMagicPacket.
  rewrite (attempt_invalid mac options net Hwf).
  repeat split.
Qed.

Lemma C3_invalid_address_rejected_witness :
  ~ well_formed "not-a-mac" /\
  sendCustomMagicPacket "not-a-mac" (Options.make None None None)
    (Network.make None None) = Rejected invalid_message.
Proof.
  assert (H : ~ well_formed "not-a-mac").
  { apply invalid_format_true. vm_compute. reflexivity. }
  split; [exact H|].
  exact (proj1 (C3_invalid_address_rejected "not-a-mac"
                  (Options.make None None None) (Network.make None None) H)).
Defined.

(** The call [socket.send] itself is issued by the executor, before the
    callback of [socket.bind] has run: the datagram waits in the queue of
    the socket until the socket is bound. *)
Lemma send_is_deferred (mac : string) (options : Options.t) :
  invalid_format (replace_separators mac) = false ->
  valid_port (port_of options) = true ->
  let w := executor mac options World.initial in
  World.trace w =
    [CreateSocket; Bind (or_null (Options.interface options));
     Send (datagram_of mac options)] /\
  option_map Socket.queue (World.socket w) =
    Some (Some [deferred_send (datagram_of mac options) sent_callback]) /\
  option_map Socket.listening_listeners (World.socket w) =
    Some [bound_callback; flush_queue].
Proof.
  intros H Hp. run_attempt_to_send H Hp.
  repeat split.
Qed.

(** C4. In every execution of a send attempt, whenever the magic packet
    leaves through the socket the broadcast option is on, a call
    [setBroadcast(true)] having come before: the call [socket.send] of the
    executor comes first, but the socket keeps the datagram until it is
    bound, and the callback of [socket.bind] runs before the datagram is
    taken up. And the packet does leave, once, when the address is well
    formed, the port is a port, the socket gets bound and the send
    succeeds. *)
Theorem C4_broadcast_enabled_before_send (mac : string) (options : Options.t)
    (net : Network.t) :
  broadcast_before_transmit (World.trace (attempt mac options net)) /\
  (well_formed mac -> valid_port (port_of options) = true ->
   Network.bind_error net = None -> Network.send_error net = None ->
   transmitted_datagrams (World.trace (attempt mac options net)) =
     [datagram_of mac options]).
Proof.
  split.
  - unfold broadcast_before_transmit.
    attempt_runs mac options net; cbn [World.trace];
      intros pre d flag post Htr; split_trace Htr; split; simpl; auto 10.
  - intros Hwf Hp Hb Hs. apply invalid_format_false in Hwf.
    attempt_runs mac options net; try discriminate; reflexivity.
Qed.

Lemma C4_broadcast_enabled_before_send_witness :
  well_formed "AA-BB-CC-DD-EE-FF" /\
  transmitted_datagrams
    (World.trace (attempt "AA-BB-CC-DD-EE-FF" (Options.make None None None)
                    (Network.make None None))) =
  [datagram_of "AA-BB-CC-DD-EE-FF" (Options.make None None None)].
Proof.
  assert (H : well_formed "AA-BB-CC-DD-EE-FF").
  { apply invalid_format_false. vm_compute. reflexivity. }
  split; [exact H|].
  exact (proj2 (C4_broadcast_enabled_before_send "AA-BB-CC-DD-EE-FF"
                  (Options.make None None None) (Network.make None None))
               H eq_refl eq_refl eq_refl).
Defined.

(** The socket is closed on the four paths that the code handles: when
    [socket.send] accepts the port, the attempt opens one socket and closes
    it, whether the packet was sent, the address was rejected, the binding
    failed or the send failed; the attempt settles, its result is the last
    thing that happens, and by then the socket is closed. *)
Lemma socket_closed_on_the_handled_paths (mac : string) (options : Options.t)
    (net : Network.t) :
  valid_port (port_of options) = true ->
  exists (pre : list Event) (result : Promise unit),
    World.trace (attempt mac options net) = pre ++ [Deliver result] /\
    result = sendCustomMagicPacket mac options net /\
    result <> Pending /\
    List.length (filter is_create pre) = 1%nat /\
    List.length (filter is_close pre) = 1%nat /\
    option_map Socket.closed (World.socket (attempt mac options net)) =
      Some true /\
    World.tasks (attempt mac options net) = [].
Proof.
  intros Hvalid. unfold sendCustomMagicPacket.
  attempt_runs mac options net; try discriminate;
    cbn [World.trace World.promise World.socket World.tasks].
  - exists [CreateSocket; Bind (or_null (Options.interface options));
            Reject invalid_message; Close], (Rejected invalid_message).
    repeat split; discriminate.
  - exists [CreateSocket; Bind (or_null (Options.interface options));
            Send (datagram_of mac options); Reject e; Close], (Rejected e).
    repeat split; discriminate.
  - exists [CreateSocket; Bind (or_null (Options.interface options));
            Send (datagram_of mac options); SetBroadcast true;
            Reject e; Close],
           (Rejected e).
    repeat split; discriminate.
  - exists [CreateSocket; Bind (or_null (Options.interface options));
            Send (datagram_of mac options); SetBroadcast true;
            Transmit (datagram_of mac options) true; Resolve; Close],
           (Fulfilled tt).
    repeat split; discriminate.
Qed.

(** C8 does not hold of the code: an exit path leaves the socket open.
    With the port 70000, [socket.send] throws inside the executor; the
    promise is rejected by the exception, none of the three calls of
    [socket.close()] is reached, the binding then completes, and the socket
    stays open and bound. The request that leads there is answered with the
    failure of the custom attempt. *)
Theorem C8_socket_left_open_when_send_throws :
  let mac := "00:11:22:33:44:55" in
  let options := Options.make (Some "255.255.255.255") (Some 70000) None in
  let w := attempt mac options (Network.make None None) in
  World.trace w =
    [CreateSocket; Bind None; Send (datagram_of mac options);
     Throw bad_port_message; Deliver (Rejected bad_port_message);
     SetBroadcast true] /\
  World.promise w = Rejected bad_port_message /\
  filter is_close (World.trace w) = [] /\
  option_map Socket.closed (World.socket w) = Some false /\
  World.tasks w = [] /\
  wakeup (Env.make None None) [] (fun _ _ => Fulfilled tt)
    (fun _ => Network.make None None)
    (Request.make (Some mac) (Some 70000) None (Some "custom") false None) =
  (Some (Response.make 500 false "Failed to send Wake-on-LAN packet"
           (Some (Results.make None
                    (Some (custom_single
                             (SendResult.make false
                                (Some bad_port_message))))))),
   [CustomAttempt mac options (World.trace w)]).
Proof.
  cbv zeta.
  rewrite (attempt_bad_port "00:11:22:33:44:55"
             (Options.make (Some "255.255.255.255") (Some 70000) None)
             (Network.make None None) eq_refl eq_refl eq_refl).
  repeat split.
Qed.

(* ===================================================================== *)
(** ** Properties of the dispatch over the interfaces *)
(* ===================================================================== *)

Lemma sendCustomMagicPacket_outcome (mac : string) (options : Options.t)
    (net : Network.t) :
  sendCustomMagicPacket mac options net = attempt_outcome mac options net.
Proof.
  unfold sendCustomMagicPacket, attempt_outcome.
  attempt_runs mac options net; reflexivity.
Qed.

Lemma sendCustomMagicPacket_settles (mac : string) (options : Options.t)
    (net : Network.t) :
  sendCustomMagicPacket mac options net <> Pending.
Proof.
  rewrite sendCustomMagicPacket_outcome. unfold attempt_outcome.
  destruct (invalid_format _); [discriminate|].
  destruct (valid_port _); [|discriminate]. cbn [negb].
  destruct (Network.bind_error net); [discriminate|].
  destruct (Network.send_error net); discriminate.
Qed.


Section DispatchProperties.

Variable networkInterfaces : list (string * list NetworkInterfaceInfo.t).
Variable network : nat -> Network.t.
Variable mac : string.
Variable options : Options.t.

Lemma dispatched_from_app (qs qs' : list (string * NetworkInterfaceInfo.t)) :
  forall k,
    dispatched_from network mac options k (qs ++ qs') =
    dispatched_from network mac options k qs ++
    dispatched_from network mac options (k + List.length qs) qs'.
Proof.
  induction qs as [|q qs IH]; intros k; simpl.
  - rewrite Nat.add_0_r. reflexivity.
  - rewrite IH.
    replace (k + S (List.length qs))%nat with (S k + List.length qs)%nat by lia.
    reflexivity.
Qed.

Lemma dispatched_from_length (qs : list (string * NetworkInterfaceInfo.t)) :
  forall k,
    List.length (dispatched_from network mac options k qs) = List.length qs.
Proof.
  induction qs as [|q qs IH]; intros k; simpl; [|rewrite IH]; reflexivity.
Qed.

Lemma dispatched_from_nth (qs : list (string * NetworkInterfaceInfo.t)) :
  forall k i q,
    nth_error qs i = Some q ->
    nth_error (dispatched_from network mac options k qs) i =
    Some (dispatched network mac options (k + i) (fst q) (snd q)).
Proof.
  induction qs as [|q0 qs IH]; intros k [|i] q H; simpl in *; try discriminate.
  - inversion H; subst. rewrite Nat.add_0_r. reflexivity.
  - rewrite (IH (S k) i q H).
    replace (k + S i)%nat with (S k + i)%nat by lia. reflexivity.
Qed.

Lemma dispatched_from_In (qs : list (string * NetworkInterfaceInfo.t)) :
  forall k d,
    In d (dispatched_from network mac options k qs) ->
    exists i q, In q qs /\ d = dispatched network mac options i (fst q) (snd q).
Proof.
  induction qs as [|q0 qs IH]; intros k d H; simpl in *; [contradiction|].
  destruct H as [<-|H].
  - exists k, q0. auto.
  - destruct (IH _ _ H) as (i & q & Hq & ->). exists i, q. auto.
Qed.

(** The inner loop pushes one element per qualifying entry, in order. *)
Lemma inner_loop_spec (name : string) (l : list NetworkInterfaceInfo.t) :
  forall sendPromises,
    fold_left
      (fun sendPromises iface =>
         dispatch_entry network mac options name iface sendPromises)
      l sendPromises =
    sendPromises ++
    dispatched_from network mac options (List.length sendPromises)
      (map (pair name) (filter qualifies l)).
Proof.
  induction l as [|iface l IH]; intros acc; simpl.
  - rewrite app_nil_r. reflexivity.
  - rewrite IH. unfold dispatch_entry, qualifies.
    destruct (_ && _)%bool; simpl; [|reflexivity].
    rewrite <- app_assoc, length_app. simpl.
    replace (List.length acc + 1)%nat with (S (List.length acc)) by lia.
    reflexivity.
Qed.

Lemma outer_loop_spec (entries : list (string * list NetworkInterfaceInfo.t)) :
  forall sendPromises,
    fold_left
      (fun sendPromises entry =>
         fold_left
           (fun sendPromises iface =>
              dispatch_entry network mac options (fst entry) iface sendPromises)
           (snd entry) sendPromises)
      entries sendPromises =
    sendPromises ++
    dispatched_from network mac options (List.length sendPromises)
      (qualifying entries).
Proof.
  induction entries as [|entry entries IH]; intros acc; simpl.
  - rewrite app_nil_r. reflexivity.
  - rewrite IH, inner_loop_spec, dispatched_from_app.
    rewrite <- app_assoc, length_app, dispatched_from_length. reflexivity.
Qed.

(** The dispatch pushes exactly one element per qualifying entry, in the
    order of the enumeration. *)
Lemma dispatch_spec :
  dispatch networkInterfaces network mac options =
  dispatched_from network mac options 0 (qualifying networkInterfaces).
Proof. unfold dispatch. rewrite outer_loop_spec. reflexivity. Qed.

(** The promise of each element is fulfilled, whatever its attempt did. *)
Lemma dispatched_promise (k : nat) (q : string * NetworkInterfaceInfo.t) :
  Dispatched.promise (dispatched network mac options k (fst q) (snd q)) =
  Fulfilled (report_entry network mac options k q).
Proof.
  unfold dispatched, report_entry. cbn [Dispatched.promise].
  change (World.promise (attempt mac
            (with_interface options (NetworkInterfaceInfo.address (snd q)))
            (network k)))
    with (sendCustomMagicPacket mac
            (with_interface options (NetworkInterfaceInfo.address (snd q)))
            (network k)).
  pose proof (sendCustomMagicPacket_settles mac
                (with_interface options (NetworkInterfaceInfo.address (snd q)))
                (network k)) as Hs.
  rewrite sendCustomMagicPacket_outcome in *.
  destruct (attempt_outcome mac _ (network k)) as [| [] |m]; simpl;
    [contradiction | reflexivity | reflexivity].
Qed.

Lemma report_from_length (qs : list (string * NetworkInterfaceInfo.t)) :
  forall k,
    List.length (report_from network mac options k qs) = List.length qs.
Proof.
  induction qs as [|q qs IH]; intros k; simpl; [|rewrite IH]; reflexivity.
Qed.

Lemma report_from_nth (qs : list (string * NetworkInterfaceInfo.t)) :
  forall k i q,
    nth_error qs i = Some q ->
    nth_error (report_from network mac options k qs) i =
    Some (report_entry network mac options (k + i) q).
Proof.
  induction qs as [|q0 qs IH]; intros k [|i] q H; simpl in *; try discriminate.
  - inversion H; subst. rewrite Nat.add_0_r. reflexivity.
  - rewrite (IH (S k) i q H).
    replace (k + S i)%nat with (S k + i)%nat by lia. reflexivity.
Qed.

(** [Promise.all] over the dispatched promises never rejects and never
    waits: each member was given a [catch]. *)
Lemma Promise_all_dispatched (qs : list (string * NetworkInterfaceInfo.t)) :
  forall k,
    Promise_all
      (map Dispatched.promise (dispatched_from network mac options k qs)) =
    Fulfilled (report_from network mac options k qs).
Proof.
  induction qs as [|q qs IH]; intros k; [reflexivity|].
  cbn [dispatched_from map Promise_all report_from].
  rewrite IH, dispatched_promise. reflexivity.
Qed.

Lemma custom_results_all :
  custom_results networkInterfaces network mac options true =
  (Some (custom_array
           (report_from network mac options 0 (qualifying networkInterfaces))),
   map (attempt_event mac)
     (dispatched_from network mac options 0 (qualifying networkInterfaces))).
Proof.
  unfold custom_results. rewrite dispatch_spec, Promise_all_dispatched.
  reflexivity.
Qed.

End DispatchProperties.

(** C6. The multi-interface dispatch makes one attempt for each enumerated
    entry whose family is IPv4 and whose internal flag is false, for those
    entries only and in their order; with no such entry the result is the
    empty array, not an error, and no attempt is made. *)
Theorem C6_dispatch_over_qualifying_interfaces
    (networkInterfaces : list (string * list NetworkInterfaceInfo.t))
    (network : nat -> Network.t) (mac : string) (options : Options.t) :
  map (fun d => (Dispatched.name d, Dispatched.iface d))
    (dispatch networkInterfaces network mac options) =
  qualifying networkInterfaces /\
  List.length
    (snd (custom_results networkInterfaces network mac options true)) =
  List.length (qualifying networkInterfaces) /\
  (forall k name iface,
     nth_error (qualifying networkInterfaces) k = Some (name, iface) ->
     let interfaceOptions :=
       with_interface options (NetworkInterfaceInfo.address iface) in
     nth_error
       (snd (custom_results networkInterfaces network mac options true)) k =
     Some (CustomAttempt mac interfaceOptions
             (World.trace (attempt mac interfaceOptions (network k))))) /\
  (qualifying networkInterfaces = [] ->
   custom_results networkInterfaces network mac options true =
   (Some (custom_array []), [])).
Proof.
  rewrite custom_results_all, dispatch_spec. cbn [snd].
  split; [|split; [|split]].
  - generalize 0%nat.
    induction (qualifying networkInterfaces) as [|[name iface] qs IH];
      intros k; simpl; [reflexivity|]. rewrite IH. reflexivity.
  - rewrite length_map, dispatched_from_length. reflexivity.
  - intros k name iface Hk. cbv zeta.
    rewrite nth_error_map,
      (dispatched_from_nth network mac options _ 0 k (name, iface) Hk).
    reflexivity.
  - intros ->. reflexivity.
Qed.

Lemma C6_dispatch_over_qualifying_interfaces_witness :
  qualifying
    [("lo", [NetworkInterfaceInfo.make "127.0.0.1" "IPv4" true;
             NetworkInterfaceInfo.make "::1" "IPv6" true])] = [] /\
  custom_results
    [("lo", [NetworkInterfaceInfo.make "127.0.0.1" "IPv4" true;
             NetworkInterfaceInfo.make "::1" "IPv6" true])]
    (fun _ => Network.make None None) "00:11:22:33:44:55"
    (Options.make (Some "255.255.255.255") (Some 9) None) true =
  (Some (custom_array []), []).
Proof.
  split; [reflexivity|].
  apply (proj2 (proj2 (proj2
           (C6_dispatch_over_qualifying_interfaces
              [("lo", [NetworkInterfaceInfo.make "127.0.0.1" "IPv4" true;
                       NetworkInterfaceInfo.make "::1" "IPv6" true])]
              (fun _ => Network.make None None) "00:11:22:33:44:55"
              (Options.make (Some "255.255.255.255") (Some 9) None))))).
  reflexivity.
Defined.

(** C7. In a multi-interface dispatch the report is an array with exactly
    one entry per qualifying interface, carrying its name and address; the
    failure of one attempt is that entry's failure, with the message of the
    error (for a bind or send failure, the message of that failure), and
    each entry depends on its own attempt only: a failure is never the
    result of the whole dispatch. *)
Theorem C7_failures_stay_in_their_entry
    (networkInterfaces : list (string * list NetworkInterfaceInfo.t))
    (network : nat -> Network.t) (mac : string) (options : Options.t) :
  exists rs : list InterfaceResult.t,
    fst (custom_results networkInterfaces network mac options true) =
      Some (custom_array rs) /\
    List.length rs = List.length (qualifying networkInterfaces) /\
    forall k name iface,
      nth_error (qualifying networkInterfaces) k = Some (name, iface) ->
      let p :=
        sendCustomMagicPacket mac
          (with_interface options (NetworkInterfaceInfo.address iface))
          (network k) in
      exists r : InterfaceResult.t,
        nth_error rs k = Some r /\
        InterfaceResult.interface r = name /\
        InterfaceResult.address r = NetworkInterfaceInfo.address iface /\
        (p = Fulfilled tt ->
         InterfaceResult.success r = true /\ InterfaceResult.error r = None) /\
        (forall m, p = Rejected m ->
         InterfaceResult.success r = false /\
         InterfaceResult.error r = Some m) /\
        (forall e, well_formed mac -> valid_port (port_of options) = true ->
         Network.bind_error (network k) = Some e \/
         Network.bind_error (network k) = None /\
         Network.send_error (network k) = Some e ->
         InterfaceResult.success r = false /\
         InterfaceResult.error r = Some e).
Proof.
  exists (report_from network mac options 0 (qualifying networkInterfaces)).
  rewrite custom_results_all. cbn [fst].
  split; [reflexivity|]. split; [apply report_from_length|].
  intros k name iface Hk.
  exists (report_entry network mac options k (name, iface)).
  split; [exact (report_from_nth network mac options _ 0 k _ Hk)|].
  rewrite sendCustomMagicPacket_outcome.
  unfold report_entry, attempt_outcome. cbn [fst snd].
  change (port_of (with_interface options (NetworkInterfaceInfo.address iface)))
    with (port_of options).
  assert (Hwf : well_formed mac ->
                invalid_format (replace_separators mac) = false)
    by apply invalid_format_false.
  destruct (invalid_format (replace_separators mac));
    [|destruct (valid_port (port_of options)); cbn [negb];
      [destruct (Network.bind_error (network k)) as [eb|];
       [|destruct (Network.send_error (network k)) as [es|]]|]];
    cbn [InterfaceResult.interface InterfaceResult.address
         InterfaceResult.success InterfaceResult.error];
    (split; [reflexivity|]); (split; [reflexivity|]);
    (split; [intros H; try discriminate H; split; reflexivity|]);
    (split; [intros m H; inversion H; split; reflexivity|]);
    intros e Hm Hp He; specialize (Hwf Hm); try discriminate Hwf;
    try discriminate Hp;
    destruct He as [He|[He1 He2]]; try discriminate;
    first [inversion He | inversion He2]; subst; split; reflexivity.
Qed.

Lemma C7_failures_stay_in_their_entry_witness :
  let networkInterfaces :=
    [("lo", [NetworkInterfaceInfo.make "127.0.0.1" "IPv4" true]);
     ("eth0", [NetworkInterfaceInfo.make "192.168.1.10" "IPv4" false;
               NetworkInterfaceInfo.make "fe80::1" "IPv6" false]);
     ("wlan0", [NetworkInterfaceInfo.make "10.0.0.7" "IPv4" false])] in
  let network := fun k : nat =>
    match k with
    | O => Network.make (Some "bind EADDRNOTAVAIL 192.168.1.10") None
    | _ => Network.make None None
    end in
  exists (rs : list InterfaceResult.t) (r : InterfaceResult.t),
    fst (custom_results networkInterfaces network "AA-BB-CC-DD-EE-FF"
           (Options.make (Some "255.255.255.255") (Some 9) None) true) =
      Some (custom_array rs) /\
    List.length rs = 2%nat /\
    nth_error rs 0 = Some r /\
    InterfaceResult.interface r = "eth0" /\
    InterfaceResult.success r = false /\
    InterfaceResult.error r = Some "bind EADDRNOTAVAIL 192.168.1.10".
Proof.
  intros networkInterfaces network.
  destruct (C7_failures_stay_in_their_entry networkInterfaces network
              "AA-BB-CC-DD-EE-FF"
              (Options.make (Some "255.255.255.255") (Some 9) None))
    as (rs & Hrs & Hlen & Hentries).
  destruct (Hentries 0%nat "eth0"
              (NetworkInterfaceInfo.make "192.168.1.10" "IPv4" false) eq_refl)
    as (r & Hr & Hname & _ & _ & _ & Hfail).
  assert (Hwf : well_formed "AA-BB-CC-DD-EE-FF").
  { apply invalid_format_false. vm_compute. reflexivity. }
  destruct (Hfail "bind EADDRNOTAVAIL 192.168.1.10" Hwf eq_refl
              (or_introl eq_refl))
    as [Hsuccess Herror].
  exists rs, r. repeat split; assumption.
Defined.

(* ===================================================================== *)
(** ** Properties of the route *)
(* ===================================================================== *)

Lemma library_success_spec (library : option SendResult.t) :
  match library with
  | Some r => SendResult.success r
  | None => false
  end = true <->
  In true match library with
          | Some r => [SendResult.success r]
          | None => []
          end.
Proof.
  destruct library as [r|]; simpl.
  - split; [intros ->; auto | intros [H|[]]; exact H].
  - split; [discriminate | intros []].
Qed.

Lemma custom_success_spec (custom : option CustomResults) :
  match custom with
  | Some (custom_array rs) => existsb InterfaceResult.success rs
  | Some (custom_single r) => SendResult.success r
  | None => false
  end = true <->
  In true match custom with
          | Some (custom_single r) => [SendResult.success r]
          | Some (custom_array rs) => map InterfaceResult.success rs
          | None => []
          end.
Proof.
  destruct custom as [[r|rs]|]; simpl.
  - split; [intros ->; auto | intros [H|[]]; exact H].
  - rewrite existsb_exists, in_map_iff.
    split; intros (r & H1 & H2); exists r; auto.
  - split; [discriminate | intros []].
Qed.

Lemma anySuccess_spec (results : Results.t) :
  anySuccess results = true <-> In true (attempt_successes results).
Proof.
  unfold anySuccess, attempt_successes.
  rewrite orb_true_iff, in_app_iff, library_success_spec, custom_success_spec.
  reflexivity.
Qed.

Section RouteProperties.

Variable env : Env.t.
Variable networkInterfaces : list (string * list NetworkInterfaceInfo.t).
Variable wol_wake : string -> Options.t -> Promise unit.
Variable network : nat -> Network.t.

(** Every answer of [wake] is a report. *)
Lemma wake_report (mac : string) (body : Request.t) (response : Response.t) :
  fst (wake env networkInterfaces wol_wake network mac body) = Some response ->
  exists results : Results.t, response = respond results.
Proof.
  unfold wake.
  destruct (method_selects (Request.method body) "library" "both");
    [destruct (library_result wol_wake mac (request_options env body))|];
    cbn [option_map fst snd]; try discriminate;
    (destruct (method_selects (Request.method body) "custom" "both");
     [destruct (custom_results networkInterfaces network mac
                  (request_options env body) (Request.useAllInterfaces body))
        as [[c|] asked]|]);
    cbn [option_map fst snd]; intros H; inversion H; eauto.
Qed.

Lemma wakeup_report (body : Request.t) (response : Response.t) :
  fst (wakeup env networkInterfaces wol_wake network body) = Some response ->
  response = missing_address \/ exists results, response = respond results.
Proof.
  unfold wakeup.
  destruct (or_str (Request.macAddress body) (Env.SERVER_MAC env)) as [mac|];
    [destruct (truthy_str mac)|]; cbn [fst].
  - intros H. right. exact (wake_report mac body response H).
  - intros H; inversion H; auto.
  - intros H; inversion H; auto.
Qed.

(** What [wake] asks of the senders: the library with the options of the
    request, the custom sender with options that have the same destination
    and the same port. *)
Lemma wake_events (mac : string) (body : Request.t) (e : HandlerEvent) :
  In e (snd (wake env networkInterfaces wol_wake network mac body)) ->
  e = LibraryWake mac (request_options env body) \/
  exists (o : Options.t) (k : nat),
    e = CustomAttempt mac o (World.trace (attempt mac o (network k))) /\
    Options.address o = Options.address (request_options env body) /\
    Options.port o = Options.port (request_options env body) /\
    (Request.useAllInterfaces body = true ->
     exists q, In q (qualifying networkInterfaces) /\
       Options.interface o = Some (NetworkInterfaceInfo.address (snd q))).
Proof.
  unfold wake.
  assert (Hcustom :
    In e (snd (custom_results networkInterfaces network mac
                 (request_options env body) (Request.useAllInterfaces body))) ->
    exists (o : Options.t) (k : nat),
      e = CustomAttempt mac o (World.trace (attempt mac o (network k))) /\
      Options.address o = Options.address (request_options env body) /\
      Options.port o = Options.port (request_options env body) /\
      (Request.useAllInterfaces body = true ->
       exists q, In q (qualifying networkInterfaces) /\
         Options.interface o = Some (NetworkInterfaceInfo.address (snd q)))).
  { destruct (Request.useAllInterfaces body).
    - rewrite custom_results_all. cbn [snd]. rewrite in_map_iff.
      intros (d & <- & Hd).
      apply dispatched_from_In in Hd. destruct Hd as (i & q & Hq & ->).
      exists (with_interface (request_options env body)
                (NetworkInterfaceInfo.address (snd q))), i.
      repeat split. intros _. exists q. split; [exact Hq | reflexivity].
    - cbn [custom_results snd]. intros [<-|[]].
      exists (request_options env body), 0%nat.
      repeat split. discriminate. }
  destruct (method_selects (Request.method body) "library" "both");
    [destruct (library_result wol_wake mac (request_options env body))|];
    cbn [option_map fst snd];
    try (destruct (method_selects (Request.method body) "custom" "both");
         [destruct (custom_results networkInterfaces network mac
                      (request_options env body)
                      (Request.useAllInterfaces body)) as [c asked]|]);
    cbn [option_map fst snd app] in *; rewrite ?app_nil_r;
    intros H; repeat (destruct H as [H|H]; auto); try contradiction;
    right; exact (Hcustom H).
Qed.

End RouteProperties.

(** C2. In every report that the route produces, the overall success flag
    is true if and only if at least one of the attempts it aggregates (the
    library attempt, the single custom attempt, a custom attempt on one of
    the interfaces) is a success. *)
Theorem C2_success_iff_some_attempt_succeeded
    (env : Env.t)
    (networkInterfaces : list (string * list NetworkInterfaceInfo.t))
    (wol_wake : string -> Options.t -> Promise unit)
    (network : nat -> Network.t)
    (body : Request.t) (response : Response.t) (results : Results.t) :
  fst (wakeup env networkInterfaces wol_wake network body) = Some response ->
  Response.details response = Some results ->
  (Response.success response = true <-> In true (attempt_successes results)).
Proof.
  intros Hresponse Hdetails.
  destruct (wakeup_report env networkInterfaces wol_wake network body
              response Hresponse) as [->|[results' ->]].
  - discriminate Hdetails.
  - rewrite <- anySuccess_spec. unfold respond in *.
    destruct (anySuccess results') eqn:Hany;
      cbn [Response.details Response.success] in *;
      inversion Hdetails; subst; rewrite Hany; split; auto.
Qed.

Lemma C2_success_iff_some_attempt_succeeded_witness :
  let env := Env.make (Some "10:7B:44:93:F0:CD") (Some "192.168.8.255") in
  let networkInterfaces :=
    [("lo", [NetworkInterfaceInfo.make "127.0.0.1" "IPv4" true]);
     ("eth0", [NetworkInterfaceInfo.make "192.168.8.10" "IPv4" false]);
     ("wlan0", [NetworkInterfaceInfo.make "192.168.8.11" "IPv4" false])] in
  let wol_wake := fun (_ : string) (_ : Options.t) =>
    @Rejected unit "send ENETUNREACH" in
  let network := fun k : nat =>
    match k with
    | O => Network.make (Some "bind EADDRNOTAVAIL") None
    | _ => Network.make None None
    end in
  let body :=
    Request.make None None None (Some "both") true None in
  exists (response : Response.t) (results : Results.t),
    fst (wakeup env networkInterfaces wol_wake network body) = Some response /\
    Response.details response = Some results /\
    attempt_successes results = [false; false; true] /\
    Response.success response = true.
Proof.
  intros env networkInterfaces wol_wake network body.
  pose (results :=
    Results.make
      (Some (SendResult.make false (Some "send ENETUNREACH")))
      (Some (custom_array
         [InterfaceResult.make "eth0" "192.168.8.10" false
            (Some "bind EADDRNOTAVAIL");
          InterfaceResult.make "wlan0" "192.168.8.11" true None]))).
  assert (Hresponse :
    fst (wakeup env networkInterfaces wol_wake network body) =
    Some (respond results)) by (vm_compute; reflexivity).
  exists (respond results), results.
  split; [exact Hresponse|]. split; [reflexivity|]. split; [reflexivity|].
  apply (proj2 (C2_success_iff_some_attempt_succeeded env networkInterfaces
                  wol_wake network body (respond results) results
                  Hresponse eq_refl)).
  right; right; left; reflexivity.
Defined.

(** C5. When the request supplies no [macAddress] and no [SERVER_MAC] is
    configured, the route answers 400 with the missing-address message and
    asks nothing of any sender: the library is not called, no packet is
    built and no socket is opened. Both versions of the route do so. *)
Theorem C5_missing_address_before_any_send
    (env : Env.t)
    (networkInterfaces : list (string * list NetworkInterfaceInfo.t))
    (wol_wake : string -> Options.t -> Promise unit)
    (network : nat -> Network.t)
    (wol_wake_v1 : string -> Promise unit)
    (body : Request.t) :
  falsy_str (Request.macAddress body) = true ->
  falsy_str (Env.SERVER_MAC env) = true ->
  wakeup env networkInterfaces wol_wake network body =
    (Some (Response.make 400 false "MAC address not provided" None), []) /\
  IndexJs.wakeup env wol_wake_v1 body =
    (Some (Response.make 400 false "MAC address not provided" None), []).
Proof.
  intros Hbody Henv.
  unfold wakeup, IndexJs.wakeup, or_str, falsy_str in *.
  destruct (Request.macAddress body) as [m|];
    [destruct (truthy_str m); [discriminate Hbody|]|];
    (destruct (Env.SERVER_MAC env) as [d|];
     [destruct (truthy_str d) eqn:Hd; [discriminate Henv|]|]);
    split; reflexivity.
Qed.

Lemma C5_missing_address_before_any_send_witness :
  let env := Env.make None (Some "192.168.8.255") in
  let body := Request.make None (Some 7) None (Some "custom") true None in
  falsy_str (Request.macAddress body) = true /\
  falsy_str (Env.SERVER_MAC env) = true /\
  wakeup env
    [("eth0", [NetworkInterfaceInfo.make "192.168.8.10" "IPv4" false])]
    (fun _ _ => Fulfilled tt) (fun _ => Network.make None None) body =
    (Some (Response.make 400 false "MAC address not provided" None), []).
Proof.
  intros env body.
  split; [reflexivity|]. split; [reflexivity|].
  exact (proj1 (C5_missing_address_before_any_send env
                  [("eth0",
                    [NetworkInterfaceInfo.make "192.168.8.10" "IPv4" false])]
                  (fun _ _ => Fulfilled tt) (fun _ => Network.make None None)
                  (fun _ => Fulfilled tt) body eq_refl eq_refl)).
Defined.

(** C9. For every qualifying interface of a multi-interface dispatch, the
    options of its attempt are the base options with the interface replaced
    by the address of that interface: the destination address and the
    destination port are those of the base options. This holds of the
    dispatch over any base options, and of every custom attempt that the
    route makes for a request with [useAllInterfaces]. *)
Theorem C9_only_the_interface_is_overridden
    (env : Env.t)
    (networkInterfaces : list (string * list NetworkInterfaceInfo.t))
    (wol_wake : string -> Options.t -> Promise unit)
    (network : nat -> Network.t) :
  (forall (mac : string) (options : Options.t) (d : Dispatched.t),
     In d (dispatch networkInterfaces network mac options) ->
     Options.address (Dispatched.options d) = Options.address options /\
     Options.port (Dispatched.options d) = Options.port options /\
     Options.interface (Dispatched.options d) =
       Some (NetworkInterfaceInfo.address (Dispatched.iface d)) /\
     In (Dispatched.name d, Dispatched.iface d)
        (qualifying networkInterfaces)) /\
  (forall (body : Request.t) (mac : string) (o : Options.t)
          (events : list Event),
     Request.useAllInterfaces body = true ->
     In (CustomAttempt mac o events)
        (snd (wakeup env networkInterfaces wol_wake network body)) ->
     Options.address o = Options.address (request_options env body) /\
     Options.port o = Options.port (request_options env body) /\
     exists q, In q (qualifying networkInterfaces) /\
       Options.interface o = Some (NetworkInterfaceInfo.address (snd q))).
Proof.
  split.
  - intros mac options d Hd. rewrite dispatch_spec in Hd.
    apply dispatched_from_In in Hd. destruct Hd as (i & [name iface] & Hq & ->).
    cbn [dispatched Dispatched.options Dispatched.iface Dispatched.name
         with_interface Options.address Options.port Options.interface fst snd].
    repeat split; assumption.
  - intros body mac o events Hall Hin. unfold wakeup in Hin.
    destruct (or_str (Request.macAddress body) (Env.SERVER_MAC env)) as [m|];
      [destruct (truthy_str m)|]; cbn [snd] in Hin; try contradiction.
    apply wake_events in Hin.
    destruct Hin as [Hin|(o' & k & Hin & Ha & Hp & Hi)]; [discriminate Hin|].
    inversion Hin; subst. repeat split; auto.
Qed.

Lemma C9_only_the_interface_is_overridden_witness :
  let env := Env.make (Some "10:7B:44:93:F0:CD") (Some "192.168.8.255") in
  let networkInterfaces :=
    [("eth0", [NetworkInterfaceInfo.make "192.168.8.10" "IPv4" false])] in
  let wol_wake := fun (_ : string) (_ : Options.t) => Fulfilled tt in
  let network := fun _ : nat => Network.make None None in
  let body := Request.make None (Some 7) None (Some "custom") true None in
  let o := Options.make (Some "192.168.8.255") (Some 7) (Some "192.168.8.10") in
  let events := World.trace (attempt "10:7B:44:93:F0:CD" o (network 0%nat)) in
  In (CustomAttempt "10:7B:44:93:F0:CD" o events)
     (snd (wakeup env networkInterfaces wol_wake network body)) /\
  Options.address o = Some "192.168.8.255" /\
  Options.port o = Some 7.
Proof.
  intros env networkInterfaces wol_wake network body o events.
  assert (Hin : In (CustomAttempt "10:7B:44:93:F0:CD" o events)
                  (snd (wakeup env networkInterfaces wol_wake network body)))
    by (left; vm_compute; reflexivity).
  split; [exact Hin|].
  destruct (proj2 (C9_only_the_interface_is_overridden env networkInterfaces
                     wol_wake network)
              body "10:7B:44:93:F0:CD" o events eq_refl Hin)
    as (Ha & Hp & _).
  split; [exact Ha | exact Hp].
Defined.

Lemma or_default_str_configured (env : Env.t) :
  or_default_str (Some (configured_destination env)) "255.255.255.255" =
  configured_destination env.
Proof.
  unfold configured_destination, or_default_str.
  destruct (Env.WOL_BROADCAST_ADDR env) as [s|]; [|reflexivity].
  destruct (truthy_str s) eqn:Hs; [rewrite Hs|]; reflexivity.
Qed.

(** Every datagram of an attempt goes to the address of its options. *)
Lemma attempt_destinations (mac : string) (options : Options.t)
    (net : Network.t) :
  Forall
    (fun d => Datagram.address d =
              or_default_str (Options.address options) "255.255.255.255")
    (sent_datagrams (World.trace (attempt mac options net)) ++
     transmitted_datagrams (World.trace (attempt mac options net))).
Proof.
  attempt_runs mac options net; cbn; repeat constructor.
Qed.

(** C10. The destination of every send attempt of a request comes from
    [WOL_BROADCAST_ADDR] alone, 255.255.255.255 when it is not set: two
    requests that differ in the [broadcastAddr] field of the body only get
    the same response and cause the same events, and everything that the
    route asks of the senders goes to the configured destination. *)
Theorem C10_destination_from_environment_only
    (env : Env.t)
    (networkInterfaces : list (string * list NetworkInterfaceInfo.t))
    (wol_wake : string -> Options.t -> Promise unit)
    (network : nat -> Network.t)
    (body : Request.t) (b1 b2 : option string) :
  wakeup env networkInterfaces wol_wake network (with_broadcastAddr b1 body) =
  wakeup env networkInterfaces wol_wake network (with_broadcastAddr b2 body) /\
  Forall (goes_to (configured_destination env))
    (snd (wakeup env networkInterfaces wol_wake network
            (with_broadcastAddr b1 body))).
Proof.
  split; [reflexivity|].
  apply Forall_forall. intros e He. unfold wakeup in He.
  destruct (or_str _ _) as [m|]; [destruct (truthy_str m)|];
    cbn [snd] in He; try contradiction.
  apply wake_events in He.
  destruct He as [->|(o & k & -> & Ha & _)].
  - reflexivity.
  - split; [exact Ha|].
    pose proof (attempt_destinations m o (network k)) as Hd.
    rewrite Ha in Hd. cbn [request_options Options.address] in Hd.
    fold (configured_destination env) in Hd.
    rewrite or_default_str_configured in Hd. exact Hd.
Qed.

(* ===================================================================== *)
(** ** Further properties of one send attempt *)
(* ===================================================================== *)

(** X1. The promise of [sendCustomMagicPacket] is fulfilled exactly when
    the address is well formed, the port is a port, the socket gets bound
    and the send succeeds. *)
Theorem X1_attempt_fulfilled_iff (mac : string) (options : Options.t)
    (net : Network.t) :
  sendCustomMagicPacket mac options net = Fulfilled tt <->
  well_formed mac /\ valid_port (port_of options) = true /\
  Network.bind_error net = None /\ Network.send_error net = None.
Proof.
  rewrite <- invalid_format_false, sendCustomMagicPacket_outcome.
  unfold attempt_outcome.
  destruct (invalid_format (replace_separators mac));
    [|destruct (valid_port (port_of options)); cbn [negb];
      [destruct (Network.bind_error net);
       [|destruct (Network.send_error net)]|]];
    split; intros H; try discriminate H;
    try (destruct H as (H1 & H2 & H3 & H4); discriminate);
    repeat split.
Qed.

Lemma X1_attempt_fulfilled_iff_witness :
  sendCustomMagicPacket "00:11:22:33:44:55" (Options.make None (Some 7) None)
    (Network.make None None) = Fulfilled tt.
Proof.
  apply (proj2 (X1_attempt_fulfilled_iff "00:11:22:33:44:55"
                  (Options.make None (Some 7) None) (Network.make None None))).
  split; [apply invalid_format_false; vm_compute; reflexivity|].
  repeat split.
Defined.

(** X2. Which failure the caller of [sendCustomMagicPacket] sees: a
    malformed address is reported whatever the port and the network are; for
    a well-formed address a bad port is reported whatever the network does;
    then a bind failure; then a send failure. *)
Theorem X2_first_failure_is_reported (mac : string) (options : Options.t)
    (net : Network.t) :
  (~ well_formed mac ->
   sendCustomMagicPacket mac options net = Rejected invalid_message) /\
  (well_formed mac -> valid_port (port_of options) = false ->
   sendCustomMagicPacket mac options net = Rejected bad_port_message) /\
  (forall e, well_formed mac -> valid_port (port_of options) = true ->
   Network.bind_error net = Some e ->
   sendCustomMagicPacket mac options net = Rejected e) /\
  (forall e, well_formed mac -> valid_port (port_of options) = true ->
   Network.bind_error net = None -> Network.send_error net = Some e ->
   sendCustomMagicPacket mac options net = Rejected e).
Proof.
  rewrite sendCustomMagicPacket_outcome. unfold attempt_outcome.
  split; [|split; [|split]].
  - intros H. apply invalid_format_true in H. rewrite H. reflexivity.
  - intros H Hp. apply invalid_format_false in H. rewrite H, Hp. reflexivity.
  - intros e H Hp Hb. apply invalid_format_false in H.
    rewrite H, Hp, Hb. reflexivity.
  - intros e H Hp Hb Hs. apply invalid_format_false in H.
    rewrite H, Hp, Hb, Hs. reflexivity.
Qed.

Lemma X2_first_failure_is_reported_witness :
  sendCustomMagicPacket "00:11:22:33:44:55"
    (Options.make None (Some 70000) None)
    (Network.make (Some "bind EADDRNOTAVAIL") (Some "send ENETUNREACH")) =
  Rejected bad_port_message /\
  sendCustomMagicPacket "00:11:22:33:44" (Options.make None (Some 70000) None)
    (Network.make (Some "bind EADDRNOTAVAIL") (Some "send ENETUNREACH")) =
  Rejected invalid_message.
Proof.
  split.
  - apply (proj1 (proj2 (X2_first_failure_is_reported "00:11:22:33:44:55"
             (Options.make None (Some 70000) None)
             (Network.make (Some "bind EADDRNOTAVAIL")
                (Some "send ENETUNREACH"))))).
    + apply invalid_format_false. vm_compute. reflexivity.
    + reflexivity.
  - apply (proj1 (X2_first_failure_is_reported "00:11:22:33:44"
             (Options.make None (Some 70000) None)
             (Network.make (Some "bind EADDRNOTAVAIL")
                (Some "send ENETUNREACH")))).
    apply invalid_format_true. vm_compute. reflexivity.
Defined.

(** X3. A datagram leaves through the socket exactly when the address is
    well formed, the port is a port, the socket gets bound and the send
    succeeds, its destination resolved; it then leaves once, and it is the
    datagram given to [socket.send]: the packet of the address, for the port
    [options.port || 9] and the address
    [options.address || '255.255.255.255']. In every other run nothing
    leaves. *)
Theorem X3_datagram_leaves_iff (mac : string) (options : Options.t)
    (net : Network.t) :
  (transmitted_datagrams (World.trace (attempt mac options net)) =
     [Datagram.make (build_magic_packet (replace_separators mac))
        (or_default_num (Options.port options) 9)
        (or_default_str (Options.address options) "255.255.255.255")] <->
   well_formed mac /\ valid_port (port_of options) = true /\
   Network.bind_error net = None /\ Network.send_error net = None) /\
  (transmitted_datagrams (World.trace (attempt mac options net)) = [] <->
   ~ (well_formed mac /\ valid_port (port_of options) = true /\
      Network.bind_error net = None /\ Network.send_error net = None)) /\
  (transmitted_datagrams (World.trace (attempt mac options net)) <> [] ->
   transmitted_datagrams (World.trace (attempt mac options net)) =
   sent_datagrams (World.trace (attempt mac options net))).
Proof.
  rewrite <- invalid_format_false. fold (datagram_of mac options).
  attempt_runs mac options net; cbn;
    (split; [|split]);
    try (intros H; exfalso; apply H; reflexivity);
    try reflexivity;
    split; intros H; try discriminate H; try reflexivity;
    try (destruct H as (H1 & H2 & H3 & H4); discriminate);
    try (intros (H1 & H2 & H3 & H4); discriminate);
    try (repeat split; fail).
  exfalso. apply H. repeat split.
Qed.

Lemma X3_datagram_leaves_iff_witness :
  transmitted_datagrams
    (World.trace (attempt "00-11-22-33-44-55"
                    (Options.make (Some "192.168.8.255") None None)
                    (Network.make None None))) =
  [Datagram.make (build_magic_packet "001122334455") 9 "192.168.8.255"].
Proof.
  apply (proj2 (proj1 (X3_datagram_leaves_iff "00-11-22-33-44-55"
                         (Options.make (Some "192.168.8.255") None None)
                         (Network.make None None)))).
  split; [apply invalid_format_false; vm_compute; reflexivity|].
  repeat split.
Defined.

(** X4. The life of the socket of an attempt: the attempt begins by
    creating one socket and asking for its binding, to [options.interface]
    when that is a non-empty string and to no address otherwise; it creates
    no other socket and binds once; it closes the socket at most once, and
    calls no method of the socket after closing it. *)
Theorem X4_socket_lifecycle (mac : string) (options : Options.t)
    (net : Network.t) :
  exists rest : list Event,
    World.trace (attempt mac options net) =
      CreateSocket :: Bind (or_null (Options.interface options)) :: rest /\
    filter is_create rest = [] /\
    filter is_bind rest = [] /\
    (List.length (filter is_close rest) <= 1)%nat /\
    no_use_after_close (World.trace (attempt mac options net)).
Proof.
  attempt_runs mac options net; cbn [World.trace];
    (eexists; split; [reflexivity|]);
    (split; [reflexivity|]); (split; [reflexivity|]);
    (split; [cbn; lia|]);
    intros pre post Htr; split_trace Htr;
    intros ev Hev; simpl in Hev;
    repeat (destruct Hev as [<-|Hev]; [reflexivity|]); contradiction.
Qed.

(** X5. The promise of an attempt is settled by the first [resolve],
    [reject] or exception of the run, whatever comes later, and its result
    reaches the caller exactly once. *)
Theorem X5_first_settlement_is_delivered (mac : string) (options : Options.t)
    (net : Network.t) :
  first_settlement (World.trace (attempt mac options net)) =
    Some (sendCustomMagicPacket mac options net) /\
  filter is_deliver (World.trace (attempt mac options net)) =
    [Deliver (sendCustomMagicPacket mac options net)].
Proof.
  unfold sendCustomMagicPacket.
  attempt_runs mac options net; split; reflexivity.
Qed.

(** X6. An attempt asks at most two completions of the runtime, the one of
    the binding and the one of the send: with two jobs or more the event
    loop comes to rest in the same world, where no task is left and no
    exception is propagating. *)
Theorem X6_two_jobs_suffice (fuel : nat) (mac : string) (options : Options.t)
    (net : Network.t) :
  (2 <= fuel)%nat ->
  attempt_with fuel mac options net = attempt mac options net /\
  World.tasks (attempt_with fuel mac options net) = [] /\
  World.thrown (attempt_with fuel mac options net) = None.
Proof.
  intros Hfuel. rewrite (attempt_with_enough fuel mac options net Hfuel).
  split; [reflexivity|].
  attempt_runs mac options net; split; reflexivity.
Qed.

Lemma X6_two_jobs_suffice_witness :
  attempt_with 5 "00:11:22:33:44:55" (Options.make None None None)
    (Network.make None None) =
  attempt "00:11:22:33:44:55" (Options.make None None None)
    (Network.make None None).
Proof.
  apply (X6_two_jobs_suffice 5 "00:11:22:33:44:55"
           (Options.make None None None) (Network.make None None)).
  lia.
Defined.

Lemma replace_separators_app (s1 s2 : string) :
  replace_separators (s1 ++ s2)%string =
  (replace_separators s1 ++ replace_separators s2)%string.
Proof.
  induction s1 as [|c s1 IH]; simpl; [reflexivity|].
  rewrite IH. destruct (_ || _)%bool; reflexivity.
Qed.

(** X7. Only what is left of the address once ':' and '-' are stripped
    matters to an attempt: two addresses that strip to the same text give
    the same run, so a separator may stand anywhere in the address, any
    number of times. *)
Theorem X7_separators_do_not_matter (options : Options.t) (net : Network.t) :
  (forall mac1 mac2,
     replace_separators mac1 = replace_separators mac2 ->
     attempt mac1 options net = attempt mac2 options net) /\
  (forall s1 s2,
     attempt (s1 ++ ":" ++ s2)%string options net =
     attempt (s1 ++ s2)%string options net) /\
  (forall s1 s2,
     attempt (s1 ++ "-" ++ s2)%string options net =
     attempt (s1 ++ s2)%string options net).
Proof.
  assert (H : forall mac1 mac2,
             replace_separators mac1 = replace_separators mac2 ->
             attempt mac1 options net = attempt mac2 options net).
  { intros mac1 mac2 Heq. unfold attempt, executor. cbv zeta.
    rewrite Heq. reflexivity. }
  split; [exact H|].
  split; intros s1 s2; apply H; rewrite !replace_separators_app; reflexivity.
Qed.

Lemma X7_separators_do_not_matter_witness :
  attempt "00:11-22:33-44:55" (Options.make None None None)
    (Network.make None None) =
  attempt "0011:2233:4455" (Options.make None None None)
    (Network.make None None).
Proof.
  apply (proj1 (X7_separators_do_not_matter (Options.make None None None)
                  (Network.make None None))).
  reflexivity.
Defined.

Lemma packet_of_well_formed (mac : string) :
  well_formed mac ->
  build_magic_packet (replace_separators mac) =
  repeat 255 6 ++ List.concat (repeat (address_bytes mac) 16).
Proof.
  intros [Hlen Hhex]. unfold build_magic_packet, address_bytes.
  rewrite fill_packet_layout, (mac_bytes_decode _ Hlen Hhex). reflexivity.
Qed.

(** X8. The packet and the six address bytes determine each other: two
    well-formed addresses get the same packet exactly when they decode to
    the same six bytes, whatever their case and their separators; and the
    six bytes can be read back from the packet, at offset 6. *)
Theorem X8_packet_determines_address (mac1 mac2 : string) :
  well_formed mac1 -> well_formed mac2 ->
  (build_magic_packet (replace_separators mac1) =
   build_magic_packet (replace_separators mac2) <->
   address_bytes mac1 = address_bytes mac2) /\
  firstn 6 (skipn 6 (build_magic_packet (replace_separators mac1))) =
  address_bytes mac1.
Proof.
  intros H1 H2.
  rewrite (packet_of_well_formed mac1 H1), (packet_of_well_formed mac2 H2).
  pose proof (decode_pairs_length _ (proj1 H1)) as L1.
  fold (address_bytes mac1) in L1.
  assert (Hread : firstn 6 (skipn 6 (repeat 255 6 ++
                    List.concat (repeat (address_bytes mac1) 16))) =
                  address_bytes mac1).
  { cbn [repeat skipn app List.concat].
    rewrite firstn_app, L1, Nat.sub_diag, firstn_O, app_nil_r.
    rewrite <- L1. apply firstn_all. }
  split; [|exact Hread].
  split; [|intros ->; reflexivity].
  intros Heq. rewrite <- Hread, Heq.
  pose proof (decode_pairs_length _ (proj1 H2)) as L2.
  fold (address_bytes mac2) in L2.
  cbn [repeat skipn app List.concat].
  rewrite firstn_app, L2, Nat.sub_diag, firstn_O, app_nil_r.
  rewrite <- L2. apply firstn_all.
Qed.

Lemma X8_packet_determines_address_witness :
  build_magic_packet (replace_separators "aa:bb:cc:dd:ee:ff") =
  build_magic_packet (replace_separators "AABB-CCDD-EEFF").
Proof.
  assert (H1 : well_formed "aa:bb:cc:dd:ee:ff")
    by (apply invalid_format_false; vm_compute; reflexivity).
  assert (H2 : well_formed "AABB-CCDD-EEFF")
    by (apply invalid_format_false; vm_compute; reflexivity).
  apply (proj1 (X8_packet_determines_address _ _ H1 H2)).
  vm_compute. reflexivity.
Defined.

(* ===================================================================== *)
(** ** Further properties of the route *)
(* ===================================================================== *)

Section RouteCases.

Variable env : Env.t.
Variable networkInterfaces : list (string * list NetworkInterfaceInfo.t).
Variable wol_wake : string -> Options.t -> Promise unit.
Variable network : nat -> Network.t.

Lemma wakeup_effective (body : Request.t) :
  wakeup env networkInterfaces wol_wake network body =
  match effective_mac env body with
  | Some m => wake env networkInterfaces wol_wake network m body
  | None => (Some missing_address, [])
  end.
Proof.
  unfold wakeup, effective_mac.
  destruct (or_str (Request.macAddress body) (Env.SERVER_MAC env)) as [m|];
    [destruct (truthy_str m)|]; reflexivity.
Qed.

(** The custom attempts always leave a value in [results.custom]. *)
Lemma custom_results_settle (mac : string) (options : Options.t) (all : bool) :
  exists c : CustomResults,
    fst (custom_results networkInterfaces network mac options all) = Some c.
Proof.
  destruct all.
  - rewrite custom_results_all. eexists. reflexivity.
  - unfold custom_results. cbn [fst].
    pose proof (sendCustomMagicPacket_settles mac options (network 0%nat)) as H.
    unfold sendCustomMagicPacket in H.
    destruct (World.promise (attempt mac options (network 0%nat)))
      as [| [] |e]; [contradiction | |]; eexists; reflexivity.
Qed.

Lemma custom_results_ask_custom (mac : string) (options : Options.t)
    (all : bool) :
  filter is_library_wake
    (snd (custom_results networkInterfaces network mac options all)) = [].
Proof.
  destruct all; unfold custom_results; cbn [snd]; [|reflexivity].
  induction (dispatch networkInterfaces network mac options) as [|d l IH];
    [reflexivity | exact IH].
Qed.

Lemma wake_custom_only (mac : string) (body : Request.t) :
  method_selects (Request.method body) "library" "both" = false ->
  method_selects (Request.method body) "custom" "both" = true ->
  wake env networkInterfaces wol_wake network mac body =
  (option_map (fun c => respond (Results.make None (Some c)))
     (fst (custom_results networkInterfaces network mac
             (request_options env body) (Request.useAllInterfaces body))),
   snd (custom_results networkInterfaces network mac
          (request_options env body) (Request.useAllInterfaces body))).
Proof.
  intros Hl Hc. unfold wake. rewrite Hl, Hc.
  destruct (custom_results _ _ _ _ _) as [[c|] asked]; reflexivity.
Qed.

Lemma wake_library_only (mac : string) (body : Request.t) :
  method_selects (Request.method body) "library" "both" = true ->
  method_selects (Request.method body) "custom" "both" = false ->
  wake env networkInterfaces wol_wake network mac body =
  (option_map (fun r => respond (Results.make (Some r) None))
     (library_result wol_wake mac (request_options env body)),
   [LibraryWake mac (request_options env body)]).
Proof.
  intros Hl Hc. unfold wake. rewrite Hl, Hc.
  destruct (library_result _ _ _) as [r|]; reflexivity.
Qed.

Lemma wake_no_sender (mac : string) (body : Request.t) :
  method_selects (Request.method body) "library" "both" = false ->
  method_selects (Request.method body) "custom" "both" = false ->
  wake env networkInterfaces wol_wake network mac body =
  (Some (respond (Results.make None None)), []).
Proof. intros Hl Hc. unfold wake. rewrite Hl, Hc. reflexivity. Qed.

(** The route waits forever only for the library. *)
Lemma wake_waits_iff (mac : string) (body : Request.t) :
  fst (wake env networkInterfaces wol_wake network mac body) = None <->
  method_selects (Request.method body) "library" "both" = true /\
  wol_wake mac (request_options env body) = Pending.
Proof.
  unfold wake, library_result, try_await, then_.
  destruct (custom_results_settle mac (request_options env body)
              (Request.useAllInterfaces body)) as [c Hc].
  destruct (custom_results _ _ _ _ _) as [r asked]. cbn [fst] in Hc. subst r.
  destruct (method_selects (Request.method body) "library" "both");
    [destruct (wol_wake mac (request_options env body))|];
    destruct (method_selects (Request.method body) "custom" "both");
    cbn; split; intros H; try discriminate H;
    try (match type of H with _ /\ _ => destruct H; discriminate end); auto.
Qed.

End RouteCases.

(** X9. The status of an answer of the route: it is 400 exactly when no
    address is available, and then the answer carries no details; otherwise
    the answer carries the details and its status is 200 when the success
    flag is true and 500 when it is false. *)
Theorem X9_status_follows_success
    (env : Env.t)
    (networkInterfaces : list (string * list NetworkInterfaceInfo.t))
    (wol_wake : string -> Options.t -> Promise unit)
    (network : nat -> Network.t)
    (body : Request.t) (response : Response.t) :
  fst (wakeup env networkInterfaces wol_wake network body) = Some response ->
  (Response.status response = 400 <-> effective_mac env body = None) /\
  (Response.status response = 400 <-> Response.details response = None) /\
  (Response.status response = 200 <-> Response.success response = true) /\
  (Response.status response = 500 <->
   Response.success response = false /\ Response.details response <> None).
Proof.
  rewrite wakeup_effective.
  destruct (effective_mac env body) as [m|]; cbn [fst].
  - intros Hr. apply wake_report in Hr. destruct Hr as [results ->].
    unfold respond. destruct (anySuccess results);
      cbn [Response.status Response.details Response.success];
      (split; [|split; [|split]]); split; intros H; try discriminate H;
      try (match type of H with _ /\ _ => destruct H as [H _] end;
           discriminate H);
      try reflexivity; try (split; [reflexivity | discriminate]).
  - intros Hr. inversion Hr; subst.
    cbn [missing_address Response.status Response.details Response.success].
    (split; [|split; [|split]]); split; intros H; try discriminate H;
      try reflexivity.
    destruct H as [_ H]. exfalso. apply H. reflexivity.
Qed.

Lemma X9_status_follows_success_witness :
  let env := Env.make (Some "10:7B:44:93:F0:CD") None in
  let body := Request.make None None None (Some "library") false None in
  let response :=
    Response.make 500 false "Failed to send Wake-on-LAN packet"
      (Some (Results.make
               (Some (SendResult.make false (Some "send ENETUNREACH")))
               None)) in
  fst (wakeup env [] (fun _ _ => Rejected "send ENETUNREACH")
         (fun _ => Network.make None None) body) = Some response /\
  (Response.status response = 200 <-> Response.success response = true).
Proof.
  intros env body response.
  assert (H : fst (wakeup env [] (fun _ _ => Rejected "send ENETUNREACH")
                     (fun _ => Network.make None None) body) = Some response)
    by reflexivity.
  split; [exact H|].
  exact (proj1 (proj2 (proj2
           (X9_status_follows_success env []
              (fun _ _ => Rejected "send ENETUNREACH")
              (fun _ => Network.make None None) body response H)))).
Defined.

(** X10. The [method] of the request gates the senders. With ['library']
    the library is called once, the custom sender is not used and
    [results.custom] stays null; the library result is a success when the
    callback had no error and carries the message of the error otherwise.
    With ['custom'] the library is never called and [results.library] stays
    null. *)
Theorem X10_method_gates_the_senders
    (env : Env.t)
    (networkInterfaces : list (string * list NetworkInterfaceInfo.t))
    (wol_wake : string -> Options.t -> Promise unit)
    (network : nat -> Network.t)
    (body : Request.t) (m : string) :
  effective_mac env body = Some m ->
  (Request.method body = Some "library" ->
   snd (wakeup env networkInterfaces wol_wake network body) =
     [LibraryWake m (request_options env body)] /\
   (wol_wake m (request_options env body) = Fulfilled tt ->
    fst (wakeup env networkInterfaces wol_wake network body) =
    Some (respond (Results.make (Some (SendResult.make true None)) None))) /\
   (forall e, wol_wake m (request_options env body) = Rejected e ->
    fst (wakeup env networkInterfaces wol_wake network body) =
    Some (respond
            (Results.make (Some (SendResult.make false (Some e))) None)))) /\
  (Request.method body = Some "custom" ->
   filter is_library_wake
     (snd (wakeup env networkInterfaces wol_wake network body)) = [] /\
   exists c : CustomResults,
     fst (wakeup env networkInterfaces wol_wake network body) =
     Some (respond (Results.make None (Some c)))).
Proof.
  intros Hmac. rewrite wakeup_effective, Hmac. split; intros Hmethod.
  - rewrite wake_library_only by (rewrite Hmethod; reflexivity).
    cbn [fst snd]. unfold library_result.
    split; [reflexivity|]. split.
    + intros ->. reflexivity.
    + intros e ->. reflexivity.
  - rewrite wake_custom_only by (rewrite Hmethod; reflexivity).
    cbn [fst snd]. split; [apply custom_results_ask_custom|].
    destruct (custom_results_settle networkInterfaces network m
                (request_options env body) (Request.useAllInterfaces body))
      as [c ->].
    exists c. reflexivity.
Qed.

Lemma X10_method_gates_the_senders_witness :
  let env := Env.make (Some "10:7B:44:93:F0:CD") None in
  let body := Request.make None None None (Some "library") true None in
  snd (wakeup env
         [("eth0", [NetworkInterfaceInfo.make "192.168.8.10" "IPv4" false])]
         (fun _ _ => Fulfilled tt) (fun _ => Network.make None None) body) =
  [LibraryWake "10:7B:44:93:F0:CD" (request_options env body)].
Proof.
  intros env body.
  exact (proj1 (proj1 (X10_method_gates_the_senders env
           [("eth0", [NetworkInterfaceInfo.make "192.168.8.10" "IPv4" false])]
           (fun _ _ => Fulfilled tt) (fun _ => Network.make None None)
           body "10:7B:44:93:F0:CD" eq_refl) eq_refl)).
Defined.

(** X11. A [method] that is a non-empty string other than ['library'],
    ['custom'] and ['both'] selects no sender: nothing is asked of the
    library or of the custom sender, and the route answers 500 with both
    results null. *)
Theorem X11_unknown_method_sends_nothing
    (env : Env.t)
    (networkInterfaces : list (string * list NetworkInterfaceInfo.t))
    (wol_wake : string -> Options.t -> Promise unit)
    (network : nat -> Network.t)
    (body : Request.t) (m name : string) :
  effective_mac env body = Some m ->
  Request.method body = Some name ->
  name <> "" -> name <> "library" -> name <> "custom" -> name <> "both" ->
  wakeup env networkInterfaces wol_wake network body =
  (Some (Response.make 500 false "Failed to send Wake-on-LAN packet"
           (Some (Results.make None None))), []).
Proof.
  intros Hmac Hmethod H0 H1 H2 H3.
  apply String.eqb_neq in H0, H1, H2, H3.
  rewrite wakeup_effective, Hmac.
  apply wake_no_sender; rewrite Hmethod;
    unfold method_selects, falsy_str, truthy_str, method_is;
    rewrite H0, ?H1, ?H2, ?H3; reflexivity.
Qed.

Lemma X11_unknown_method_sends_nothing_witness :
  wakeup (Env.make (Some "10:7B:44:93:F0:CD") None)
    [("eth0", [NetworkInterfaceInfo.make "192.168.8.10" "IPv4" false])]
    (fun _ _ => Fulfilled tt) (fun _ => Network.make None None)
    (Request.make None None None (Some "Library") true None) =
  (Some (Response.make 500 false "Failed to send Wake-on-LAN packet"
           (Some (Results.make None None))), []).
Proof.
  apply (X11_unknown_method_sends_nothing
           (Env.make (Some "10:7B:44:93:F0:CD") None)
           [("eth0", [NetworkInterfaceInfo.make "192.168.8.10" "IPv4" false])]
           (fun _ _ => Fulfilled tt) (fun _ => Network.make None None)
           (Request.make None None None (Some "Library") true None)
           "10:7B:44:93:F0:CD" "Library" eq_refl eq_refl);
    discriminate.
Defined.

(** X12. The route fails to answer in one case only: the library is
    selected and its callback never comes. The custom attempts are then
    never started. Whenever the library calls back, or is not selected, the
    route answers. *)
Theorem X12_route_answers_unless_library_hangs
    (env : Env.t)
    (networkInterfaces : list (string * list NetworkInterfaceInfo.t))
    (wol_wake : string -> Options.t -> Promise unit)
    (network : nat -> Network.t)
    (body : Request.t) :
  (fst (wakeup env networkInterfaces wol_wake network body) = None <->
   exists m, effective_mac env body = Some m /\
     method_selects (Request.method body) "library" "both" = true /\
     wol_wake m (request_options env body) = Pending) /\
  (forall m, effective_mac env body = Some m ->
     method_selects (Request.method body) "library" "both" = true ->
     wol_wake m (request_options env body) = Pending ->
     snd (wakeup env networkInterfaces wol_wake network body) =
     [LibraryWake m (request_options env body)]).
Proof.
  rewrite wakeup_effective. split.
  - destruct (effective_mac env body) as [m|].
    + rewrite wake_waits_iff. split.
      * intros [H1 H2]. exists m. auto.
      * intros (m' & Hm & H1 & H2). inversion Hm; subst. auto.
    + cbn [fst]. split; [discriminate|].
      intros (m' & Hm & _). discriminate Hm.
  - intros m -> Hl Hp. unfold wake, library_result.
    rewrite Hl, Hp. reflexivity.
Qed.

Lemma X12_route_answers_unless_library_hangs_witness :
  let env := Env.make (Some "10:7B:44:93:F0:CD") None in
  let body := Request.make None None None None true None in
  wakeup env
    [("eth0", [NetworkInterfaceInfo.make "192.168.8.10" "IPv4" false])]
    (fun _ _ => Pending) (fun _ => Network.make None None) body =
  (None, [LibraryWake "10:7B:44:93:F0:CD" (request_options env body)]).
Proof.
  intros env body.
  pose proof (X12_route_answers_unless_library_hangs env
                [("eth0",
                  [NetworkInterfaceInfo.make "192.168.8.10" "IPv4" false])]
                (fun _ _ => Pending) (fun _ => Network.make None None) body)
    as [Hwait Hasked].
  apply injective_projections.
  - apply (proj2 Hwait). exists "10:7B:44:93:F0:CD". repeat split.
  - exact (Hasked "10:7B:44:93:F0:CD" eq_refl eq_refl eq_refl).
Defined.

(** X13. The address of the request wins over [SERVER_MAC]: with a
    non-empty [macAddress] the route does the same whatever [SERVER_MAC]
    is. An absent or empty [macAddress] falls back on [SERVER_MAC]: the
    route does what it does for the request that carries [SERVER_MAC] as
    its [macAddress]. *)
Theorem X13_request_address_wins
    (networkInterfaces : list (string * list NetworkInterfaceInfo.t))
    (wol_wake : string -> Options.t -> Promise unit)
    (network : nat -> Network.t)
    (body : Request.t) :
  (forall (m : string) (broadcast server1 server2 : option string),
     Request.macAddress body = Some m -> m <> "" ->
     wakeup (Env.make server1 broadcast) networkInterfaces wol_wake network
       body =
     wakeup (Env.make server2 broadcast) networkInterfaces wol_wake network
       body) /\
  (forall env : Env.t,
     falsy_str (Request.macAddress body) = true ->
     wakeup env networkInterfaces wol_wake network body =
     wakeup env networkInterfaces wol_wake network
       (with_macAddress (Env.SERVER_MAC env) body)).
Proof.
  split.
  - intros m broadcast server1 server2 Hm Hne.
    apply String.eqb_neq in Hne.
    unfold wakeup, or_str, truthy_str. rewrite Hm.
    cbn [Env.SERVER_MAC]. rewrite Hne. reflexivity.
  - intros env Hf. unfold wakeup, with_macAddress, or_str, falsy_str in *.
    cbn [Request.macAddress].
    destruct (Request.macAddress body) as [m|];
      [destruct (truthy_str m); [discriminate Hf|]|];
      (destruct (Env.SERVER_MAC env) as [s|];
       [destruct (truthy_str s) eqn:Hs; rewrite ?Hs|]); reflexivity.
Qed.

Lemma X13_request_address_wins_witness :
  let body :=
    Request.make (Some "00:11:22:33:44:55") None None (Some "custom") false
      None in
  wakeup (Env.make (Some "10:7B:44:93:F0:CD") None) []
    (fun _ _ => Fulfilled tt) (fun _ => Network.make None None) body =
  wakeup (Env.make None None) []
    (fun _ _ => Fulfilled tt) (fun _ => Network.make None None) body.
Proof.
  intros body.
  apply (proj1 (X13_request_address_wins [] (fun _ _ => Fulfilled tt)
                  (fun _ => Network.make None None) body)
           "00:11:22:33:44:55" None (Some "10:7B:44:93:F0:CD") None eq_refl).
  discriminate.
Defined.

Lemma or_default_num_again (v : option Z) (d : Z) :
  d <> 0 -> or_default_num (Some (or_default_num v d)) d = or_default_num v d.
Proof.
  intros Hd. apply Z.eqb_neq in Hd.
  unfold or_default_num, truthy_num.
  destruct v as [n|]; [destruct (n =? 0) eqn:Hn|];
    cbn [negb]; rewrite ?Hn, ?Hd; reflexivity.
Qed.

(** Every datagram of an attempt is for the port of its options. *)
Lemma attempt_ports (mac : string) (options : Options.t) (net : Network.t) :
  Forall (fun d => Datagram.port d = port_of options)
    (sent_datagrams (World.trace (attempt mac options net)) ++
     transmitted_datagrams (World.trace (attempt mac options net))).
Proof.
  attempt_runs mac options net; cbn; repeat constructor.
Qed.

(** X14. The port of every send attempt of a request is the [port] of the
    body, 9 when it is absent or 0: the library is called with that port,
    every custom attempt has it in its options, and every datagram is for
    it. *)
Theorem X14_port_of_the_request_or_9
    (env : Env.t)
    (networkInterfaces : list (string * list NetworkInterfaceInfo.t))
    (wol_wake : string -> Options.t -> Promise unit)
    (network : nat -> Network.t)
    (body : Request.t) :
  Forall (for_port (or_default_num (Request.port body) 9))
    (snd (wakeup env networkInterfaces wol_wake network body)) /\
  (Request.port body = None \/ Request.port body = Some 0 ->
   or_default_num (Request.port body) 9 = 9).
Proof.
  split.
  - apply Forall_forall. intros e He. rewrite wakeup_effective in He.
    destruct (effective_mac env body) as [m|]; cbn [snd] in He;
      [|contradiction].
    apply wake_events in He.
    destruct He as [->|(o & k & -> & _ & Hp & _)].
    + reflexivity.
    + split; [exact Hp|].
      pose proof (attempt_ports m o (network k)) as Hd.
      unfold port_of in Hd. rewrite Hp in Hd.
      cbn [request_options Options.port] in Hd.
      rewrite or_default_num_again in Hd by discriminate. exact Hd.
  - intros [-> | ->]; reflexivity.
Qed.

Lemma X14_port_of_the_request_or_9_witness :
  or_default_num
    (Request.port (Request.make None (Some 0) None None false None)) 9 = 9.
Proof.
  apply (proj2 (X14_port_of_the_request_or_9 (Env.make None None) []
                  (fun _ _ => Fulfilled tt) (fun _ => Network.make None None)
                  (Request.make None (Some 0) None None false None))).
  right. reflexivity.
Defined.

(** X15. In a multi-interface dispatch the [interface] of the request is
    not used: with [useAllInterfaces] and the method ['custom'], two
    requests that differ in [interface] only get the same response and
    cause the same events. *)
Theorem X15_interface_unused_when_all_interfaces
    (env : Env.t)
    (networkInterfaces : list (string * list NetworkInterfaceInfo.t))
    (wol_wake : string -> Options.t -> Promise unit)
    (network : nat -> Network.t)
    (body : Request.t) (i1 i2 : option string) :
  Request.useAllInterfaces body = true ->
  Request.method body = Some "custom" ->
  wakeup env networkInterfaces wol_wake network
    (with_request_interface i1 body) =
  wakeup env networkInterfaces wol_wake network
    (with_request_interface i2 body).
Proof.
  intros Hall Hmethod. rewrite !wakeup_effective.
  change (effective_mac env (with_request_interface i1 body))
    with (effective_mac env body).
  change (effective_mac env (with_request_interface i2 body))
    with (effective_mac env body).
  destruct (effective_mac env body) as [m|]; [|reflexivity].
  rewrite !wake_custom_only
    by (cbn [with_request_interface Request.method]; rewrite Hmethod;
        reflexivity).
  cbn [with_request_interface Request.useAllInterfaces]. rewrite Hall.
  reflexivity.
Qed.

Lemma X15_interface_unused_when_all_interfaces_witness :
  let env := Env.make (Some "10:7B:44:93:F0:CD") None in
  let networkInterfaces :=
    [("eth0", [NetworkInterfaceInfo.make "192.168.8.10" "IPv4" false])] in
  let body := Request.make None None None (Some "custom") true None in
  wakeup env networkInterfaces (fun _ _ => Fulfilled tt)
    (fun _ => Network.make None None)
    (with_request_interface (Some "10.0.0.7") body) =
  wakeup env networkInterfaces (fun _ _ => Fulfilled tt)
    (fun _ => Network.make None None)
    (with_request_interface None body).
Proof.
  intros env networkInterfaces body.
  exact (X15_interface_unused_when_all_interfaces env networkInterfaces
           (fun _ _ => Fulfilled tt) (fun _ => Network.make None None)
           body (Some "10.0.0.7") None eq_refl eq_refl).
Defined.





(** X17. With [useAllInterfaces], the method ['custom'] and no qualifying
    interface, nothing is sent and the route answers 500: the empty array of
    results counts as a failure. *)
Theorem X17_no_interface_is_a_failure
    (env : Env.t)
    (networkInterfaces : list (string * list NetworkInterfaceInfo.t))
    (wol_wake : string -> Options.t -> Promise unit)
    (network : nat -> Network.t)
    (body : Request.t) (m : string) :
  effective_mac env body = Some m ->
  Request.useAllInterfaces body = true ->
  Request.method body = Some "custom" ->
  qualifying networkInterfaces = [] ->
  wakeup env networkInterfaces wol_wake network body =
  (Some (Response.make 500 false "Failed to send Wake-on-LAN packet"
           (Some (Results.make None (Some (custom_array []))))), []).
Proof.
  intros Hmac Hall Hmethod Hq.
  rewrite wakeup_effective, Hmac.
  rewrite wake_custom_only by (rewrite Hmethod; reflexivity).
  rewrite Hall, custom_results_all, Hq. reflexivity.
Qed.

Lemma X17_no_interface_is_a_failure_witness :
  wakeup (Env.make (Some "10:7B:44:93:F0:CD") None)
    [("lo", [NetworkInterfaceInfo.make "127.0.0.1" "IPv4" true]);
     ("eth0", [NetworkInterfaceInfo.make "fe80::1" "IPv6" false])]
    (fun _ _ => Fulfilled tt) (fun _ => Network.make None None)
    (Request.make None None None (Some "custom") true None) =
  (Some (Response.make 500 false "Failed to send Wake-on-LAN packet"
           (Some (Results.make None (Some (custom_array []))))), []).
Proof.
  exact (X17_no_interface_is_a_failure
           (Env.make (Some "10:7B:44:93:F0:CD") None)
           [("lo", [NetworkInterfaceInfo.make "127.0.0.1" "IPv4" true]);
            ("eth0", [NetworkInterfaceInfo.make "fe80::1" "IPv6" false])]
           (fun _ _ => Fulfilled tt) (fun _ => Network.make None None)
           (Request.make None None None (Some "custom") true None)
           "10:7B:44:93:F0:CD" eq_refl eq_refl eq_refl eq_refl).
Defined.

(** X18. Without [useAllInterfaces] the method ['custom'] makes exactly one
    attempt, with the options of the request, so bound to the [interface] of
    the request when there is one. The route then answers 200 with
    [{ success: true }] when the attempt is fulfilled, and 500 with the
    message of the error when it is rejected. *)
Theorem X18_single_custom_attempt
    (env : Env.t)
    (networkInterfaces : list (string * list NetworkInterfaceInfo.t))
    (wol_wake : string -> Options.t -> Promise unit)
    (network : nat -> Network.t)
    (body : Request.t) (m : string) :
  effective_mac env body = Some m ->
  Request.useAllInterfaces body = false ->
  Request.method body = Some "custom" ->
  let options := request_options env body in
  let p := sendCustomMagicPacket m options (network 0%nat) in
  snd (wakeup env networkInterfaces wol_wake network body) =
    [CustomAttempt m options
       (World.trace (attempt m options (network 0%nat)))] /\
  (exists rest,
     World.trace (attempt m options (network 0%nat)) =
     CreateSocket :: Bind (or_null (Request.interface body)) :: rest) /\
  (p = Fulfilled tt ->
   fst (wakeup env networkInterfaces wol_wake network body) =
   Some (Response.make 200 true "Wake-on-LAN packet sent successfully"
           (Some (Results.make None
                    (Some (custom_single (SendResult.make true None))))))) /\
  (forall e, p = Rejected e ->
   fst (wakeup env networkInterfaces wol_wake network body) =
   Some (Response.make 500 false "Failed to send Wake-on-LAN packet"
           (Some (Results.make None
                    (Some (custom_single
                             (SendResult.make false (Some e)))))))).
Proof.
  intros Hmac Hall Hmethod options p. subst options p.
  rewrite wakeup_effective, Hmac.
  rewrite wake_custom_only by (rewrite Hmethod; reflexivity).
  rewrite Hall. unfold custom_results, sendCustomMagicPacket. cbn [fst snd].
  split; [reflexivity|]. split.
  - set (o := request_options env body).
    assert (Hi : or_null (Options.interface o) =
                 or_null (Request.interface body)).
    { subst o. cbn [request_options Options.interface]. unfold or_null, or_str.
      destruct (Request.interface body) as [i|]; [|reflexivity].
      destruct (truthy_str i) eqn:Hi; [rewrite Hi|]; reflexivity. }
    rewrite <- Hi.
    attempt_runs m o (network 0%nat); eexists; reflexivity.
  - split.
    + intros ->. reflexivity.
    + intros e ->. reflexivity.
Qed.

Lemma X18_single_custom_attempt_witness :
  let env := Env.make (Some "10:7B:44:93:F0:CD") (Some "192.168.8.255") in
  let body :=
    Request.make None (Some 7) (Some "192.168.8.10") (Some "custom") false
      None in
  fst (wakeup env [] (fun _ _ => Fulfilled tt)
         (fun _ => Network.make (Some "bind EADDRNOTAVAIL 192.168.8.10") None)
         body) =
  Some (Response.make 500 false "Failed to send Wake-on-LAN packet"
          (Some (Results.make None
                   (Some (custom_single
                            (SendResult.make false
                               (Some "bind EADDRNOTAVAIL 192.168.8.10"))))))).
Proof.
  intros env body.
  apply (proj2 (proj2 (proj2
           (X18_single_custom_attempt env [] (fun _ _ => Fulfilled tt)
              (fun _ =>
                 Network.make (Some "bind EADDRNOTAVAIL 192.168.8.10") None)
              body "10:7B:44:93:F0:CD" eq_refl eq_refl eq_refl)))).
  vm_compute. reflexivity.
Defined.

(** X19. The two versions of the route resolve the address in the same
    way: when no address is available neither asks anything of a sender;
    otherwise the first version calls the library once, without options,
    for the address that every library call and every custom attempt of the
    second version is made for. *)
Theorem X19_versions_resolve_the_same_address
    (env : Env.t)
    (networkInterfaces : list (string * list NetworkInterfaceInfo.t))
    (wol_wake : string -> Options.t -> Promise unit)
    (network : nat -> Network.t)
    (wol_wake_v1 : string -> Promise unit)
    (body : Request.t) :
  (effective_mac env body = None ->
   snd (IndexJs.wakeup env wol_wake_v1 body) = [] /\
   snd (wakeup env networkInterfaces wol_wake network body) = []) /\
  (forall m, effective_mac env body = Some m ->
   snd (IndexJs.wakeup env wol_wake_v1 body) =
     [LibraryWake m (Options.make None None None)] /\
   forall e, In e (snd (wakeup env networkInterfaces wol_wake network body)) ->
     match e with
     | LibraryWake m' _ => m' = m
     | CustomAttempt m' _ _ => m' = m
     end).
Proof.
  rewrite wakeup_effective.
  unfold IndexJs.wakeup, effective_mac.
  destruct (or_str (Request.macAddress body) (Env.SERVER_MAC env)) as [m0|];
    [destruct (truthy_str m0)|]; split;
    try (intros H; discriminate H); try (intros m H; discriminate H);
    try (intros _; split; reflexivity).
  intros m H. inversion H; subst. split; [reflexivity|].
  intros e He. apply wake_events in He.
  destruct He as [->|(o & k & -> & _)]; reflexivity.
Qed.

Lemma X19_versions_resolve_the_same_address_witness :
  let env := Env.make (Some "10:7B:44:93:F0:CD") None in
  let body := Request.make (Some "") None None None false None in
  snd (IndexJs.wakeup env (fun _ => Fulfilled tt) body) =
  [LibraryWake "10:7B:44:93:F0:CD" (Options.make None None None)].
Proof.
  intros env body.
  exact (proj1 (proj2 (X19_versions_resolve_the_same_address env []
                         (fun _ _ => Fulfilled tt)
                         (fun _ => Network.make None None)
                         (fun _ => Fulfilled tt) body)
                  "10:7B:44:93:F0:CD" eq_refl)).
Defined.






(** X21. The length test of the validation guard never decides: the
    regular expression accepts strings of twelve characters only, so the
    guard rejects exactly the stripped addresses that the regular
    expression does not match. *)
Theorem X21_length_test_is_implied (macAddress : string) :
  (regex_hex12_test macAddress = true ->
   String.length macAddress = 12%nat) /\
  invalid_format macAddress = negb (regex_hex12_test macAddress).
Proof.
  assert (H : regex_hex12_test macAddress = true ->
              String.length macAddress = 12%nat).
  { unfold regex_hex12_test. intros Hm.
    apply match_class_times_spec in Hm. exact (proj1 Hm). }
  split; [exact H|].
  unfold invalid_format.
  destruct (regex_hex12_test macAddress) eqn:Hm; cbn [negb].
  - rewrite (H eq_refl). reflexivity.
  - apply orb_true_r.
Qed.

Lemma X21_length_test_is_implied_witness :
  String.length "0011223344fF" = 12%nat.
Proof.
  apply (proj1 (X21_length_test_is_implied "0011223344fF")).
  vm_compute. reflexivity.
Defined.
